(** * hp3458a_utils: binary sample decoding and uncertainty estimation

    A shallow embedding of [hp3458a_utils.py], the helpers that drive an
    HP3458A multimeter over a VISA session, with the properties its
    specification states about them.  The specification calls
    [read_binary_mem] [read_samples], [T_aper_check]
    [aperture_time_is_valid] and [get_uncertainty]
    [uncertainty_for_current_mode].

    Layout:
    - [PyNum]: the numbers of the module, Python's [int] and [float]; a
      [float] is an IEEE binary64 number, here a primitive float;
    - [PyStr]: the string built-ins used: [int()], [float()], [str()] of
      an [int], [str.find], slicing; a string is ASCII text, as the
      session decodes the answers of the device;
    - [PyArith]: [/], [+] and string repetition, with their exceptions;
    - [Struct]: [struct.unpack] for big-endian signed integers;
    - [Visa]: the session ([write], [query], [read_bytes]); a function
      of the module is the tree of its calls on the session, run against
      a device that is a state machine;
    - the functions of the module;
    - the properties. *)

From Stdlib Require Import ZArith Lia List Bool String Ascii Floats.
From Stdlib Require Import Init.Byte DecimalString.
Import ListNotations.

Set Warnings "-inexact-float".

Local Open Scope Z_scope.
Local Open Scope bool_scope.

(** ** Python numbers *)

Module PyNum.

(** A value that is either a Python [int] (unbounded) or a Python [float]
    (binary64). *)
Inductive pynum : Type :=
| PyInt (z : Z)
| PyFloat (f : float).

(** The binary64 number nearest to [n / d] (ties to even), for [d > 0].
    This is the rounding Python applies to a decimal literal, to
    [int / int] and to the conversion of an [int] to [float]. *)
Definition round_ratio (n d : Z) : float :=
  match n with
  | Z0 => PrimFloat.zero
  | _ =>
    let '(q, e, l) := SFdiv_core_binary prec emax (Z.abs n) 0 d 0 in
    SF2Prim (binary_round_aux prec emax (n <? 0) q e l)
  end.

(** [float(z)] for an [int] within the binary64 range. *)
Definition float_of_int (z : Z) : float := round_ratio z 1.

(** The value [m * 10^e], rounded once. *)
Definition float_of_decimal (neg : bool) (m : Z) (e : Z) : float :=
  if m =? 0 then (if neg then PrimFloat.neg_zero else PrimFloat.zero)
  else
    let m' := if neg then - m else m in
    if 0 <=? e then round_ratio (m' * 10 ^ e) 1
    else round_ratio m' (10 ^ (- e)).

(** Exact comparison of an integer with a binary64 number: Python compares
    an [int] with a [float] by value, without rounding the [int]. *)
Definition cmp_Z_SF (z : Z) (x : spec_float) : option comparison :=
  match x with
  | S754_nan => None
  | S754_infinity s => Some (if s then Gt else Lt)
  | S754_zero _ => Some (z ?= 0)
  | S754_finite s m e =>
    let v := if s then Z.neg m else Z.pos m in
    Some (if 0 <=? e then z ?= v * 2 ^ e else z * 2 ^ (- e) ?= v)
  end.

Definition is_Lt (c : option comparison) : bool :=
  match c with Some Lt => true | _ => false end.
Definition is_Gt (c : option comparison) : bool :=
  match c with Some Gt => true | _ => false end.
Definition is_Le (c : option comparison) : bool :=
  match c with Some (Lt | Eq) => true | _ => false end.
Definition is_Ge (c : option comparison) : bool :=
  match c with Some (Gt | Eq) => true | _ => false end.

(** [a < b] *)
Definition lt (a b : pynum) : bool :=
  match a, b with
  | PyInt x, PyInt y => x <? y
  | PyFloat x, PyFloat y => PrimFloat.ltb x y
  | PyInt x, PyFloat y => is_Lt (cmp_Z_SF x (Prim2SF y))
  | PyFloat x, PyInt y => is_Gt (cmp_Z_SF y (Prim2SF x))
  end.

(** [a <= b] *)
Definition le (a b : pynum) : bool :=
  match a, b with
  | PyInt x, PyInt y => x <=? y
  | PyFloat x, PyFloat y => PrimFloat.leb x y
  | PyInt x, PyFloat y => is_Le (cmp_Z_SF x (Prim2SF y))
  | PyFloat x, PyInt y => is_Ge (cmp_Z_SF y (Prim2SF x))
  end.

(** [a > b] *)
Definition gt (a b : pynum) : bool := lt b a.

(** [a != a]: only a NaN is unordered with itself. *)
Definition is_nan (a : pynum) : bool :=
  match a with
  | PyInt _ => false
  | PyFloat f => PrimFloat.is_nan f
  end.

(** [numpy.abs] of a Python scalar.  An [int] that fits is taken as an
    [int64], whose most negative value has no positive counterpart and
    comes back unchanged; one in the [uint64] range or beyond is
    non-negative or handled as a Python object. *)
Definition np_abs (a : pynum) : pynum :=
  match a with
  | PyInt z => PyInt (if z =? - 2 ^ 63 then z else Z.abs z)
  | PyFloat f => PyFloat (PrimFloat.abs f)
  end.

End PyNum.
Export PyNum.

(** ** Python strings *)

Module PyStr.

Local Open Scope char_scope.

Definition is_digit (c : ascii) : bool :=
  let n := nat_of_ascii c in (48 <=? n)%nat && (n <=? 57)%nat.

Definition digit_val (c : ascii) : Z := Z.of_nat (nat_of_ascii c) - 48.

(** The blanks [int()] and [float()] skip around an ASCII literal: tab to
    carriage return (9 to 13) and the space (32).  The separators 28 to
    31, blanks for [str.isspace], are not skipped. *)
Definition is_space (c : ascii) : bool :=
  let n := nat_of_ascii c in
  ((9 <=? n)%nat && (n <=? 13)%nat) || Nat.eqb n 32.

Fixpoint lstrip (l : list ascii) : list ascii :=
  match l with
  | c :: r => if is_space c then lstrip r else l
  | [] => []
  end.

Definition strip (l : list ascii) : list ascii :=
  rev (lstrip (rev (lstrip l))).

(** A run of digits in which single underscores may separate digits:
    the value read, the number of digits, and what follows the run.
    [n] counts the digits read so far; an underscore is taken only
    between two digits. *)
Fixpoint scan_digits (acc : Z) (n : nat) (l : list ascii) : Z * nat * list ascii :=
  match l with
  | c :: r =>
    if is_digit c then scan_digits (10 * acc + digit_val c) (S n) r
    else if Ascii.eqb c "_" && negb (Nat.eqb n 0) then
      match r with
      | c' :: r' =>
        if is_digit c' then scan_digits (10 * acc + digit_val c') (S n) r'
        else (acc, n, l)
      | [] => (acc, n, l)
      end
    else (acc, n, l)
  | [] => (acc, n, l)
  end.

(** An optional sign: whether it is a minus, and the rest. *)
Definition scan_sign (l : list ascii) : bool * list ascii :=
  match l with
  | "-" :: r => (true, r)
  | "+" :: r => (false, r)
  | _ => (false, l)
  end.

(** [int(s)], base 10: [None] stands for the [ValueError] of a malformed
    literal.  The bound CPython puts on the number of digits (4300 unless
    the interpreter is told otherwise) is not modelled. *)
Definition py_int (s : string) : option Z :=
  let '(neg, l) := scan_sign (strip (list_ascii_of_string s)) in
  match scan_digits 0 0 l with
  | (_, O, _) => None
  | (v, _, []) => Some (if neg then - v else v)
  | (_, _, _ :: _) => None
  end.

Definition lower (c : ascii) : ascii :=
  let n := nat_of_ascii c in
  if (65 <=? n)%nat && (n <=? 90)%nat then ascii_of_nat (n + 32) else c.

Definition lower_string (l : list ascii) : string :=
  string_of_list_ascii (map lower l).

(** The exponent part of a decimal literal, when there is one: [e] or [E],
    an optional sign, digits; nothing may follow. *)
Definition scan_exponent (l : list ascii) : option Z :=
  match l with
  | [] => Some 0
  | c :: r =>
    if Ascii.eqb (lower c) "e" then
      let '(neg, r') := scan_sign r in
      match scan_digits 0 0 r' with
      | (_, O, _) => None
      | (v, _, []) => Some (if neg then - v else v)
      | (_, _, _ :: _) => None
      end
    else None
  end.

(** [float(s)]: [None] stands for the [ValueError] of a malformed literal.
    The literal is a sign, then [inf], [infinity] or [nan] in any case, or
    digits with an optional point and an optional exponent, with at least
    one digit before the exponent; its value is rounded once to the
    nearest binary64 number. *)
Definition py_float (s : string) : option float :=
  let '(neg, l) := scan_sign (strip (list_ascii_of_string s)) in
  let word := lower_string l in
  if String.eqb word "inf" || String.eqb word "infinity" then
    Some (if neg then PrimFloat.neg_infinity else PrimFloat.infinity)
  else if String.eqb word "nan" then Some PrimFloat.nan
  else
    let '(ip, ni, l1) := scan_digits 0 0 l in
    let '(m, nf, l2) :=
      match l1 with
      | "." :: r =>
        let '(m, n, l2) := scan_digits ip 0 r in
        match n, r with
        | O, _ => (ip, O, r)
        | _, _ => (m, n, l2)
        end
      | _ => (ip, O, l1)
      end in
    if Nat.eqb (ni + nf) 0 then None
    else
      match scan_exponent l2 with
      | Some e => Some (float_of_decimal neg m (e - Z.of_nat nf))
      | None => None
      end.

(** [str(z)] for an [int], without the interpreter's bound on the number
    of digits. *)
Definition str_int (z : Z) : string := NilZero.string_of_int (Z.to_int z).

(** [s.find(c)] for a one-character [c]: the index of its first
    occurrence, or [-1]. *)
Fixpoint find_from (c : ascii) (l : list ascii) (i : Z) : Z :=
  match l with
  | [] => -1
  | x :: r => if Ascii.eqb x c then i else find_from c r (i + 1)
  end.

Definition find (s : string) (c : ascii) : Z :=
  find_from c (list_ascii_of_string s) 0.

(** [s[:k]]: a negative [k] counts from the end, and the bounds are
    clipped to the string. *)
Definition slice_to (s : string) (k : Z) : string :=
  let l := list_ascii_of_string s in
  let k' := if (k <? 0)%Z then Z.max 0 (Z.of_nat (List.length l) + k) else k in
  string_of_list_ascii (firstn (Z.to_nat k') l).

End PyStr.
Export PyStr.

Local Open Scope string_scope.
Local Open Scope Z_scope.

(** ** Exceptions and results *)

Inductive exn : Type :=
| ValueError (msg : string)
| ZeroDivisionError (msg : string)
| OverflowError (msg : string)
| StructError (msg : string)
| VisaIOError.

(** The two errors the module raises itself (lines 119 and 177), under the
    names the specification gives them. *)
Definition UnsupportedFormat : exn :=
  ValueError "I don't know hot to read that memory format!".
Definition UnsupportedMode : exn :=
  ValueError "Cannot get uncertainty for the current mode of operation.".

(** The [ValueError]s of the built-ins [int()] and [float()]; the offending
    literal, which Python appends to the message, is left out. *)
Definition int_literal_error : exn :=
  ValueError "invalid literal for int() with base 10".
Definition float_literal_error : exn :=
  ValueError "could not convert string to float".

Definition result (A : Type) : Type := (exn + A)%type.

(** ** Arithmetic on Python numbers that can raise *)

Module PyArith.

(** The conversion of an [int] operand to [float] in mixed arithmetic. *)
Definition to_float (a : pynum) : result float :=
  match a with
  | PyFloat f => inr f
  | PyInt z =>
    let f := float_of_int z in
    if PrimFloat.is_infinity f
    then inl (OverflowError "int too large to convert to float")
    else inr f
  end.

(** [a / b].  The quotient of two [int]s is rounded once, and a zero
    dividend takes the sign of the divisor. *)
Definition truediv (a b : pynum) : result pynum :=
  match a, b with
  | PyInt x, PyInt y =>
    if y =? 0 then inl (ZeroDivisionError "division by zero")
    else
      let f :=
        if x =? 0 then (if y <? 0 then PrimFloat.neg_zero else PrimFloat.zero)
        else round_ratio (x * Z.sgn y) (Z.abs y) in
      if PrimFloat.is_infinity f
      then inl (OverflowError "integer division result too large for a float")
      else inr (PyFloat f)
  | _, _ =>
    match to_float a with
    | inl e => inl e
    | inr x =>
      match to_float b with
      | inl e => inl e
      | inr y =>
        if PrimFloat.eqb y PrimFloat.zero
        then inl (ZeroDivisionError "float division by zero")
        else inr (PyFloat (x / y)%float)
      end
    end
  end.

(** [a + b] *)
Definition add (a b : pynum) : result pynum :=
  match a, b with
  | PyInt x, PyInt y => inr (PyInt (x + y))
  | _, _ =>
    match to_float a with
    | inl e => inl e
    | inr x =>
      match to_float b with
      | inl e => inl e
      | inr y => inr (PyFloat (x + y)%float)
      end
    end
  end.

(** [s * n] for a string [s] and an [int] [n]: [n] copies of [s], none when
    [n] is negative. *)
Definition str_mul (s : string) (n : Z) : string :=
  String.concat "" (repeat s (Z.to_nat n)).

End PyArith.
Export PyArith.

(** ** [struct.unpack], big-endian signed integers *)

Module Struct.

(** The bytes of an unsigned big-endian integer, most significant first. *)
Definition be_unsigned (bs : list byte) : Z :=
  fold_left (fun acc b => acc * 256 + Z.of_N (Byte.to_N b)) bs 0.

(** Two's complement over the width of [bs]. *)
Definition be_signed (bs : list byte) : Z :=
  let u := be_unsigned bs in
  let w := 8 * Z.of_nat (List.length bs) in
  if u <? 2 ^ (w - 1) then u else u - 2 ^ w.

(** Standard sizes of the signed integer codes. *)
Definition code_size (c : ascii) : option nat :=
  match c with
  | "b"%char => Some 1%nat
  | "h"%char => Some 2%nat
  | "i"%char | "l"%char => Some 4%nat
  | "q"%char => Some 8%nat
  | _ => None
  end.

(** [struct.calcsize] of a sequence of codes. *)
Fixpoint calcsize (codes : list ascii) : option nat :=
  match codes with
  | [] => Some 0%nat
  | c :: r =>
    match code_size c, calcsize r with
    | Some w, Some n => Some (w + n)%nat
    | _, _ => None
    end
  end.

Fixpoint unpack_items (codes : list ascii) (data : list byte) : list Z :=
  match codes with
  | [] => []
  | c :: r =>
    match code_size c with
    | Some w => be_signed (firstn w data) :: unpack_items r (skipn w data)
    | None => []
    end
  end.

(** [struct.unpack(fmt, data)] for a format that starts with [>]: one
    integer per code, and a [struct.error] unless [data] has exactly the
    size of the format. *)
Definition unpack (fmt : string) (data : list byte) : result (list Z) :=
  match fmt with
  | String ">"%char codes =>
    let cs := list_ascii_of_string codes in
    match calcsize cs with
    | Some n =>
      if Nat.eqb (List.length data) n then inr (unpack_items cs data)
      else inl (StructError "unpack requires a buffer of the size of the format")
    | None => inl (StructError "bad char in struct format")
    end
  | _ => inl (StructError "bad char in struct format")
  end.

End Struct.

(** ** The instrument session *)

Module Visa.

(** What a function of the module does with the session, as a tree: each
    node is one call on the session, and its children are the rest of the
    function, by response. *)
Inductive prog (A : Type) : Type :=
| Ret (a : A)
| Raise (e : exn)
| Write (cmd : string) (k : prog A)
| Query (cmd : string) (k : string -> prog A)
| Read_bytes (n : Z) (k : list byte -> prog A).

Arguments Ret {A} a.
Arguments Raise {A} e.
Arguments Write {A} cmd k.
Arguments Query {A} cmd k.
Arguments Read_bytes {A} n k.

Fixpoint bind {A B : Type} (p : prog A) (f : A -> prog B) : prog B :=
  match p with
  | Ret a => f a
  | Raise e => Raise e
  | Write cmd k => Write cmd (bind k f)
  | Query cmd k => Query cmd (fun r => bind (k r) f)
  | Read_bytes n k => Read_bytes n (fun d => bind (k d) f)
  end.

(** [HP3458A.write(cmd)], [HP3458A.query(cmd)], [HP3458A.read_bytes(n)] *)
Definition write (cmd : string) : prog unit := Write cmd (Ret tt).
Definition query (cmd : string) : prog string := Query cmd Ret.
Definition read_bytes (n : Z) : prog (list byte) := Read_bytes n Ret.

(** A computation that returns or raises without touching the session. *)
Definition lift {A : Type} (r : result A) : prog A :=
  match r with
  | inl e => Raise e
  | inr a => Ret a
  end.

(** [int(s)] and [float(s)] with their [ValueError]. *)
Definition int_ (s : string) : prog Z :=
  match py_int s with
  | Some z => Ret z
  | None => Raise int_literal_error
  end.
Definition float_ (s : string) : prog float :=
  match py_float s with
  | Some f => Ret f
  | None => Raise float_literal_error
  end.

(** The device at the other end: a state machine that accepts a command,
    answers a query and delivers bytes, or fails, which the session
    reports as a [VisaIOError]. *)
Record Instrument : Type := {
  dev_state : Type;
  dev_write : string -> dev_state -> option dev_state;
  dev_query : string -> dev_state -> option (string * dev_state);
  dev_read_bytes : Z -> dev_state -> option (list byte * dev_state)
}.

(** One call on the session. *)
Inductive op : Type :=
| OpWrite (cmd : string)
| OpQuery (cmd : string)
| OpRead (n : Z).

Inductive outcome (A : Type) : Type :=
| Returned (a : A)
| Raised (e : exn).

Arguments Returned {A} a.
Arguments Raised {A} e.

(** Running a function against a device: how it ends, the calls it
    issued, in order, and the state the device is left in. *)
Fixpoint run (D : Instrument) {A : Type} (p : prog A) (s : dev_state D)
  : outcome A * list op * dev_state D :=
  match p with
  | Ret a => (Returned a, [], s)
  | Raise e => (Raised e, [], s)
  | Write cmd k =>
    match dev_write D cmd s with
    | Some s' => let '(o, t, s'') := run D k s' in (o, OpWrite cmd :: t, s'')
    | None => (Raised VisaIOError, [OpWrite cmd], s)
    end
  | Query cmd k =>
    match dev_query D cmd s with
    | Some (r, s') => let '(o, t, s'') := run D (k r) s' in (o, OpQuery cmd :: t, s'')
    | None => (Raised VisaIOError, [OpQuery cmd], s)
    end
  | Read_bytes n k =>
    match dev_read_bytes D n s with
    | Some (d, s') => let '(o, t, s'') := run D (k d) s' in (o, OpRead n :: t, s'')
    | None => (Raised VisaIOError, [OpRead n], s)
    end
  end.

Definition result_of {A S : Type} (r : outcome A * list op * S) : outcome A := fst (fst r).
Definition calls_of {A S : Type} (r : outcome A * list op * S) : list op := snd (fst r).

(** The commands a function writes before it first waits for the device
    (or ends). *)
Fixpoint written {A : Type} (p : prog A) : list string :=
  match p with
  | Write cmd k => cmd :: written k
  | _ => []
  end.

End Visa.
Export Visa.

Declare Scope prog_scope.
Delimit Scope prog_scope with prog.
Notation "x <- p ;; q" := (bind p (fun x => q))
  (at level 61, p at next level, right associativity) : prog_scope.
Notation "p ;; q" := (bind p (fun _ => q))
  (at level 61, right associativity) : prog_scope.

Local Open Scope prog_scope.

(** ** The module [hp3458a_utils] *)

(** The value of the default argument [max_input=1000]. *)
Definition default_max_input : pynum := PyInt 1000.

(** Lines 126-130.  [500e-9] is a [float] and [1] an [int]. *)
Definition T_aper_check (T_aper : pynum) : bool :=
  if PyNum.lt T_aper (PyFloat 500e-9) || PyNum.gt T_aper (PyInt 1)
  then false
  else true.

(** Lines 140-154 of [get_uncertainty_DCV_sampling]: the two locals the
    chain of tests assigns, [(bits, cutoff_3dB)]. *)
Definition bits_cutoff_3dB (T_aper : float) : Z * float :=
  if (T_aper <? 1e-6)%float then (15, 400e3%float)
  else if (T_aper <? 3e-6)%float then (16, 206e3%float)
  else if (T_aper <? 6e-6)%float then (17, 69e3%float)
  else if (T_aper <? 100e-6)%float then (18, 35e3%float)
  else (21, 2e3%float).

(** Lines 132-157.  The list of line 138 is replaced on line 156 before
    it is read, and [cutoff_3dB] is assigned and never read. *)
Definition get_uncertainty_DCV_sampling : prog (list pynum) :=
  r <- query "APER?" ;;
  T_aper <- float_ r ;;
  let '(bits, cutoff_3dB) := bits_cutoff_3dB T_aper in
  r <- query "RANGE?" ;;
  DMM_range <- float_ r ;;
  q <- lift (truediv (PyFloat DMM_range) (PyInt (2 ^ bits))) ;;
  c <- lift (add (PyFloat 3e-6) q) ;;
  Ret [PyFloat 14e-6; c].

(** Lines 159-165.  The list is built left to right: the quotient of the
    constants, then the query. *)
Definition get_uncertainty_direct_sampling : prog (list pynum) :=
  a <- lift (truediv (PyFloat 0.02) (PyInt 100)) ;;
  r <- query "RANGE?" ;;
  DMM_range <- float_ r ;;
  b <- lift (truediv (PyFloat DMM_range) (PyInt (2 ^ 16))) ;;
  Ret [a; b].

(** Lines 167-177.  The mode-14 branch returns the two [int]s of the
    source. *)
Definition get_uncertainty : prog (list pynum) :=
  current_mode <- query "FUNC?" ;;
  current_mode <- int_ (slice_to current_mode (find current_mode ",")) ;;
  if current_mode =? 1 then get_uncertainty_DCV_sampling
  else if current_mode =? 12 then get_uncertainty_direct_sampling
  else if current_mode =? 14 then Ret [PyInt 1; PyInt 1]
  else Raise UnsupportedMode.

(** Lines 112-119 of [read_binary_mem]: the two locals the tests assign,
    [(conversion_format, bytes_per_sample)].  The format is queried again
    when the first answer is not [3]. *)
Definition conversion_format_bytes_per_sample : prog (string * Z) :=
  r <- query "MFORMAT?" ;;
  c <- int_ r ;;
  if c =? 3 then Ret ("i", 4)
  else
    r <- query "MFORMAT?" ;;
    c <- int_ r ;;
    if c =? 2 then Ret ("h", 2)
    else Raise UnsupportedFormat.

(** Lines 91-124.  The array the function returns is the list of its
    elements. *)
Definition read_binary_mem (N_SAMPLES : Z) : prog (list float) :=
  fmt <- conversion_format_bytes_per_sample ;;
  let '(conversion_format, bytes_per_sample) := fmt in
  write ("RMEM 1," ++ str_int N_SAMPLES) ;;
  data <- read_bytes (bytes_per_sample * N_SAMPLES) ;;
  samples <- lift (Struct.unpack (">" ++ str_mul conversion_format N_SAMPLES) data) ;;
  r <- query "ISCALE?" ;;
  ISCALE <- float_ r ;;
  let samples := map (fun z => (float_of_int z * ISCALE)%float) samples in
  Ret (rev samples).

Section Configure.

(** [repr] of a [float], the shortest decimal text that reads back as the
    same number; [str] of a [float] and of NumPy's [float64] give the same
    text.  The commands only carry it to the device, so it is left
    open. *)
Variable repr_float : float -> string.

(** [str(a)] *)
Definition str (a : pynum) : string :=
  match a with
  | PyInt z => str_int z
  | PyFloat f => repr_float f
  end.

(** Lines 7-30.  The quotient [1/effective_sampling_frequency] is taken
    when the [SWEEP] command is built, after [SSDC 1] has been sent. *)
Definition configure_sub_sampling
  (samples_per_burst effective_sampling_frequency max_input : pynum) : prog unit :=
  write "PRESET FAST" ;;
  write "MEM FIFO" ;;
  write "MFORMAT SINT" ;;
  write "OFORMAT SINT" ;;
  write "SSDC 1" ;;
  period <- lift (truediv (PyInt 1) effective_sampling_frequency) ;;
  write ("SWEEP " ++ str period ++ "," ++ str samples_per_burst) ;;
  write "SSRC EXT" ;;
  write "TARM HOLD".

(** Lines 32-57. *)
Definition configure_direct_digitalizing
  (samples_per_burst effective_sampling_frequency t_aper max_input : pynum) : prog unit :=
  write "PRESET DIG" ;;
  write ("DSDC " ++ str (np_abs max_input)) ;;
  write "MEM LIFO" ;;
  write "MFORMAT SINT" ;;
  write "OFORMAT SINT" ;;
  period <- lift (truediv (PyInt 1) effective_sampling_frequency) ;;
  write ("TIMER " ++ str period) ;;
  write ("NRDGS " ++ str samples_per_burst ++ ", TIMER") ;;
  write "TRIG EXT" ;;
  write "TARM AUTO".

(** Lines 59-89.  [memory_format] is the local of lines 78-81. *)
Definition configure_DCV_digitalizing
  (samples_per_burst sampling_frequency aper_time max_input : pynum) : prog unit :=
  write "PRESET DIG" ;;
  write "MEM LIFO" ;;
  let memory_format :=
    if PyNum.gt aper_time (PyFloat 1.4e-6) then "DINT" else "SINT" in
  write ("MFORMAT " ++ memory_format) ;;
  write ("OFORMAT " ++ memory_format) ;;
  period <- lift (truediv (PyInt 1) sampling_frequency) ;;
  write ("TIMER " ++ str period) ;;
  write ("APER " ++ str aper_time) ;;
  write ("NRDGS " ++ str samples_per_burst ++ ", TIMER") ;;
  write "TRIG EXT" ;;
  write ("DCV " ++ str (np_abs max_input)) ;;
  write "TARM AUTO".

End Configure.

(** ** The vocabulary of the properties *)

(** The function mode [get_uncertainty] reads from an answer to [FUNC?]:
    the integer before the first comma. *)
Definition mode_of (r : string) : option Z := py_int (slice_to r (find r ",")).

Definition byte_of_Z (z : Z) : byte :=
  match Byte.of_N (Z.to_N (z mod 256)) with
  | Some b => b
  | None => x00
  end.

(** The [w] bytes of [z] in two's complement, most significant first. *)
Fixpoint be_bytes (w : nat) (z : Z) : list byte :=
  match w with
  | O => []
  | S w' => (be_bytes w' (z / 256) ++ [byte_of_Z z])%list
  end.

(** The buffer that holds the integers [raw], [w] bytes each. *)
Definition pack (w : nat) (raw : list Z) : list byte :=
  List.concat (map (be_bytes w) raw).

(** [z] is a signed integer of [w] bytes. *)
Definition fits (w : nat) (z : Z) : Prop :=
  - 2 ^ (8 * Z.of_nat w - 1) <= z < 2 ^ (8 * Z.of_nat w - 1).

(** The device reports the memory format [code] each time
    [read_binary_mem] asks for it: once when the code is 3, twice
    otherwise; [s'] is its state afterwards. *)
Definition reports_format (D : Instrument) (s : dev_state D) (code : Z) (s' : dev_state D) : Prop :=
  exists r1 s1,
    dev_query D "MFORMAT?" s = Some (r1, s1) /\ py_int r1 = Some code /\
    if code =? 3 then s' = s1
    else exists r2, dev_query D "MFORMAT?" s1 = Some (r2, s') /\ py_int r2 = Some code.

(** A function that only writes: no query and no read. *)
Fixpoint write_only {A : Type} (p : prog A) : bool :=
  match p with
  | Ret _ | Raise _ => true
  | Write _ k => write_only k
  | Query _ _ | Read_bytes _ _ => false
  end.

(** A synthetic device for tests: it accepts every command, answers a
    query from a fixed table (and fails on a query that is not in it),
    and delivers the first [n] bytes of a fixed buffer. *)
Fixpoint lookup (cmd : string) (answers : list (string * string)) : option string :=
  match answers with
  | [] => None
  | (c, r) :: rest => if String.eqb c cmd then Some r else lookup cmd rest
  end.

Definition synthetic (answers : list (string * string)) (buffer : list byte) : Instrument :=
  {| dev_state := unit;
     dev_write := fun _ s => Some s;
     dev_query := fun cmd s =>
       match lookup cmd answers with
       | Some r => Some (r, s)
       | None => None
       end;
     dev_read_bytes := fun n s => Some (firstn (Z.to_nat n) buffer, s) |}.

(** A device that answers queries from a script, in order, whatever the
    query; it accepts every command and delivers a fixed buffer. *)
Definition scripted (buffer : list byte) : Instrument :=
  {| dev_state := list string;
     dev_write := fun _ s => Some s;
     dev_query := fun _ s =>
       match s with
       | r :: s' => Some (r, s')
       | [] => None
       end;
     dev_read_bytes := fun n s => Some (firstn (Z.to_nat n) buffer, s) |}.

(** ** The vocabulary of the further properties *)

(** [l] is an initial part of [full]. *)
Definition prefix {A : Type} (l full : list A) : Prop :=
  exists rest : list A, full = (l ++ rest)%list.

Definition is_write (o : op) : bool :=
  match o with
  | OpWrite _ => true
  | _ => false
  end.

Definition is_query (o : op) : bool :=
  match o with
  | OpQuery _ => true
  | _ => false
  end.

(** How a function that only writes ends when the device accepts every
    command. *)
Fixpoint ending {A : Type} (p : prog A) : option (outcome A) :=
  match p with
  | Ret a => Some (Returned a)
  | Raise e => Some (Raised e)
  | Write _ k => ending k
  | Query _ _ | Read_bytes _ _ => None
  end.

(** [-a] and [a == 0]. *)
Definition py_neg (a : pynum) : pynum :=
  match a with
  | PyInt z => PyInt (- z)
  | PyFloat f => PyFloat (- f)%float
  end.

Definition py_is_zero (a : pynum) : bool :=
  match a with
  | PyInt z => z =? 0
  | PyFloat f => PrimFloat.eqb f PrimFloat.zero
  end.

(** The string has no comma; the string without its last character. *)
Definition no_comma (s : string) : Prop :=
  ~ In ","%char (list_ascii_of_string s).

Definition drop_last (s : string) : string :=
  string_of_list_ascii (removelast (list_ascii_of_string s)).

(** Lines 120-124 of [read_binary_mem]: what it does once the format is
    chosen. *)
Definition after_format (N_SAMPLES : Z) (conversion_format : string) (bytes_per_sample : Z)
  : prog (list float) :=
  write ("RMEM 1," ++ str_int N_SAMPLES) ;;
  data <- read_bytes (bytes_per_sample * N_SAMPLES) ;;
  samples <- lift (Struct.unpack (">" ++ str_mul conversion_format N_SAMPLES) data) ;;
  r <- query "ISCALE?" ;;
  ISCALE <- float_ r ;;
  let samples := map (fun z => (float_of_int z * ISCALE)%float) samples in
  Ret (rev samples).

(** The calls up to the read, by format. *)
Definition calls_to_read (code : Z) (N_SAMPLES : Z) : list op :=
  ((if code =? 3 then [OpQuery "MFORMAT?"]
    else [OpQuery "MFORMAT?"; OpQuery "MFORMAT?"])
   ++ [OpWrite ("RMEM 1," ++ str_int N_SAMPLES);
       OpRead ((if code =? 3 then 4 else 2) * N_SAMPLES)])%list.

(** How a run ends and the calls it issued, the state of the device left
    out. *)
Definition run_outcome_calls (D : Instrument) {A : Type} (s : dev_state D) (p : prog A)
  : outcome A * list op :=
  (result_of (run D p s), calls_of (run D p s)).

(** The device accepts every command. *)
Definition accepts_all (D : Instrument) : Prop :=
  forall (cmd : string) (s : dev_state D), dev_write D cmd s <> None.

(** * Properties *)

(** ** The built-ins on examples *)

Example round_ratio_third : round_ratio 1 3 = (1 / 3)%float.
Proof. vm_compute. reflexivity. Qed.
Example float_of_decimal_micro : float_of_decimal false 14 (-7) = 1.4e-6%float.
Proof. vm_compute. reflexivity. Qed.
Example float_of_decimal_long :
  float_of_decimal false 12345678901234567890123 5 = 12345678901234567890123e5%float.
Proof. vm_compute. reflexivity. Qed.
Example float_of_decimal_subnormal :
  float_of_decimal true 4940656458412465441765 (-345) = (-4940656458412465441765e-345)%float.
Proof. vm_compute. reflexivity. Qed.
Example float_of_decimal_overflow : float_of_decimal false 1 400 = infinity.
Proof. vm_compute. reflexivity. Qed.
Example float_of_int_tie_even : float_of_int (2 ^ 53 + 1) = 9007199254740992%float.
Proof. vm_compute. reflexivity. Qed.
Example float_of_int_tie_up : float_of_int (2 ^ 53 + 3) = 9007199254740996%float.
Proof. vm_compute. reflexivity. Qed.

Example py_int_blanks : py_int " 12 " = Some 12.
Proof. vm_compute. reflexivity. Qed.
Example py_int_underscore : py_int "-1_2" = Some (-12).
Proof. vm_compute. reflexivity. Qed.
Example py_int_double_underscore : py_int "1__2" = None.
Proof. vm_compute. reflexivity. Qed.
Example py_int_trailing_underscore : py_int "1_" = None.
Proof. vm_compute. reflexivity. Qed.
Example py_int_empty : py_int "" = None.
Proof. vm_compute. reflexivity. Qed.
Example py_int_sign_blank : py_int "+ 1" = None.
Proof. vm_compute. reflexivity. Qed.
Example py_int_point : py_int "3.0" = None.
Proof. vm_compute. reflexivity. Qed.
Example py_int_all_blanks :
  py_int (string_of_list_ascii
            (map ascii_of_nat [32; 9; 10; 11; 12; 13; 49; 52; 13; 32]%nat)) = Some 14.
Proof. vm_compute. reflexivity. Qed.
(** A separator before or after the digits is no blank. *)
Example py_int_separator_before : py_int (String (ascii_of_nat 28) "14") = None.
Proof. vm_compute. reflexivity. Qed.
Example py_int_separator_after :
  py_int (string_of_list_ascii (map ascii_of_nat [49; 52; 31]%nat)) = None.
Proof. vm_compute. reflexivity. Qed.
Example mode_of_separator : mode_of (String (ascii_of_nat 28) "14, 10.0") = None.
Proof. vm_compute. reflexivity. Qed.
Example py_float_separator : py_float (String (ascii_of_nat 29) "1.5") = None.
Proof. vm_compute. reflexivity. Qed.

Example py_float_exponent : py_float "2e-6" = Some 2e-6%float.
Proof. vm_compute. reflexivity. Qed.
Example py_float_instrument : py_float " 1.000000000E+01 " = Some 10%float.
Proof. vm_compute. reflexivity. Qed.
Example py_float_point_last : py_float "1." = Some 1%float.
Proof. vm_compute. reflexivity. Qed.
Example py_float_point_first : py_float ".5" = Some 0.5%float.
Proof. vm_compute. reflexivity. Qed.
Example py_float_point_alone : py_float "." = None.
Proof. vm_compute. reflexivity. Qed.
Example py_float_infinity : py_float "-Infinity" = Some neg_infinity.
Proof. vm_compute. reflexivity. Qed.
Example py_float_nan : py_float "nan" = Some nan.
Proof. vm_compute. reflexivity. Qed.
Example py_float_no_exponent_digits : py_float "1e" = None.
Proof. vm_compute. reflexivity. Qed.
Example py_float_trailing : py_float "1.5e-3x" = None.
Proof. vm_compute. reflexivity. Qed.
Example py_float_underscores : py_float "1_0.2_5" = Some 10.25%float.
Proof. vm_compute. reflexivity. Qed.
Example py_float_misplaced_underscore : py_float "1._5" = None.
Proof. vm_compute. reflexivity. Qed.
Example py_float_minus_zero : py_float "-0" = Some neg_zero.
Proof. vm_compute. reflexivity. Qed.
Example py_float_tenth : py_float "0.1" = Some 0.1%float.
Proof. vm_compute. reflexivity. Qed.

Example str_int_negative : str_int (-120) = "-120".
Proof. vm_compute. reflexivity. Qed.
Example str_int_zero : str_int 0 = "0".
Proof. vm_compute. reflexivity. Qed.

Example mode_of_comma : mode_of "1, 10.0" = Some 1.
Proof. vm_compute. reflexivity. Qed.
(** Without a comma [find] gives [-1] and the slice drops the last
    character. *)
Example mode_of_no_comma : mode_of "12" = Some 1.
Proof. vm_compute. reflexivity. Qed.
Example mode_of_empty : mode_of "" = None.
Proof. vm_compute. reflexivity. Qed.

Example truediv_zero : truediv (PyInt 1) (PyInt 0) = inl (ZeroDivisionError "division by zero").
Proof. vm_compute. reflexivity. Qed.
Example truediv_int : truediv (PyInt 1) (PyInt 100000) = inr (PyFloat 1e-5).
Proof. vm_compute. reflexivity. Qed.
Example truediv_float : truediv (PyInt 1) (PyFloat 2.5) = inr (PyFloat 0.4).
Proof. vm_compute. reflexivity. Qed.
Example truediv_zero_dividend : truediv (PyInt 0) (PyInt (-3)) = inr (PyFloat neg_zero).
Proof. vm_compute. reflexivity. Qed.
Example truediv_underflow : truediv (PyInt 1) (PyInt (- 2 ^ 2000)) = inr (PyFloat neg_zero).
Proof. vm_compute. reflexivity. Qed.

Example unpack_short :
  Struct.unpack ">hh" [x00; x01; xff; xfe] = inr [1; -2].
Proof. vm_compute. reflexivity. Qed.
Example unpack_long :
  Struct.unpack ">i" [x80; x00; x00; x00] = inr [-2147483648].
Proof. vm_compute. reflexivity. Qed.
Example unpack_short_buffer :
  Struct.unpack ">i" [x80; x00; x00]
  = inl (StructError "unpack requires a buffer of the size of the format").
Proof. vm_compute. reflexivity. Qed.
Example pack_short : pack 2 [1; -2] = [x00; x01; xff; xfe].
Proof. vm_compute. reflexivity. Qed.

Example T_aper_check_int :
  (T_aper_check (PyInt 0), T_aper_check (PyInt 1), T_aper_check (PyInt 2)) = (false, true, false).
Proof. vm_compute. reflexivity. Qed.

(** ** The order of binary64 numbers *)

Section FloatOrder.

Lemma SFcompare_antisym (x y : spec_float) :
  SFcompare y x = option_map CompOpp (SFcompare x y).
Proof.
  destruct x as [sx|sx| |sx mx ex], y as [sy|sy| |sy my ey]; simpl; try reflexivity;
    try (destruct sx; reflexivity); try (destruct sy; reflexivity);
    try (destruct sx, sy; reflexivity).
  change (Pos.compare_cont Eq my mx) with (Pos.compare my mx).
  change (Pos.compare_cont Eq mx my) with (Pos.compare mx my).
  rewrite (Z.compare_antisym ey ex), (Pos.compare_antisym my mx).
  destruct sx, sy; simpl; try reflexivity;
    destruct (ey ?= ex); simpl; try reflexivity;
    destruct (my ?= mx)%positive; reflexivity.
Qed.

Lemma SFcompare_refl (x : spec_float) :
  x <> S754_nan -> SFcompare x x = Some Eq.
Proof.
  destruct x as [s|s| |s m e]; simpl; intros H; try reflexivity; try congruence.
  - destruct s; reflexivity.
  - change (Pos.compare_cont Eq m m) with (Pos.compare m m).
    rewrite Z.compare_refl, Pos.compare_refl. destruct s; reflexivity.
Qed.

Lemma SFcompare_None (x y : spec_float) :
  SFcompare x y = None -> x = S754_nan \/ y = S754_nan.
Proof.
  destruct x as [sx|sx| |sx mx ex], y as [sy|sy| |sy my ey]; simpl; intros H;
    try discriminate; auto.
Qed.

(** The strict order is transitive: on finite numbers of one sign it is
    the lexicographic order of exponent and mantissa. *)
Lemma SFcompare_lt_trans (x y z : spec_float) :
  SFcompare x y = Some Lt -> SFcompare y z = Some Lt -> SFcompare x z = Some Lt.
Proof.
  destruct x as [sx|sx| |sx mx ex], y as [sy|sy| |sy my ey], z as [sz|sz| |sz mz ez];
    simpl; try discriminate; try congruence;
    repeat match goal with s : bool |- _ => destruct s end;
    simpl; try discriminate; try congruence.
  all: change (Pos.compare_cont Eq mx my) with (Pos.compare mx my);
       change (Pos.compare_cont Eq my mz) with (Pos.compare my mz);
       change (Pos.compare_cont Eq mx mz) with (Pos.compare mx mz).
  all: destruct (Z.compare_spec ex ey), (Z.compare_spec ey ez), (Z.compare_spec ex ez);
       try discriminate; try congruence; try lia;
       destruct (Pos.compare_spec mx my), (Pos.compare_spec my mz), (Pos.compare_spec mx mz);
       simpl; try discriminate; try congruence; try lia.
Qed.

Lemma SFcompare_lt_le_trans (x y z : spec_float) :
  SFcompare x y = Some Lt -> SFleb y z = true -> SFcompare x z = Some Lt.
Proof.
  intros Hxy Hyz. unfold SFleb in Hyz.
  destruct (SFcompare y z) as [[| |]|] eqn:E; try discriminate.
  - (* y = z in the order: compare x z as x y *)
    clear Hyz.
    destruct x as [sx|sx| |sx mx ex], y as [sy|sy| |sy my ey], z as [sz|sz| |sz mz ez];
      simpl in *; try discriminate; try congruence;
      repeat match goal with s : bool |- _ => destruct s end;
      simpl in *; try discriminate; try congruence.
    all: change (Pos.compare_cont Eq mx my) with (Pos.compare mx my) in Hxy;
         change (Pos.compare_cont Eq my mz) with (Pos.compare my mz) in E;
         change (Pos.compare_cont Eq mx mz) with (Pos.compare mx mz).
    all: destruct (Z.compare_spec ex ey), (Z.compare_spec ey ez), (Z.compare_spec ex ez);
         try discriminate; try congruence; try lia;
         destruct (Pos.compare_spec mx my), (Pos.compare_spec my mz), (Pos.compare_spec mx mz);
         simpl in *; try discriminate; try congruence; try lia.
  - eapply SFcompare_lt_trans; eassumption.
Qed.

Local Open Scope float_scope.

Lemma is_nan_Prim2SF (x : float) :
  PrimFloat.is_nan x = false <-> Prim2SF x <> S754_nan.
Proof.
  unfold PrimFloat.is_nan. rewrite FloatAxioms.eqb_spec. unfold SFeqb. split.
  - intros H E. rewrite E in H. discriminate.
  - intros H. rewrite (SFcompare_refl _ H). reflexivity.
Qed.

(** [x < y] excludes [y <= x], and [x <= y] excludes [y < x]. *)
Lemma ltb_leb_asym (x y : float) : (x <? y) = true -> (y <=? x) = false.
Proof.
  rewrite ltb_spec, leb_spec. unfold SFltb, SFleb.
  rewrite (SFcompare_antisym (Prim2SF x) (Prim2SF y)).
  destruct (SFcompare (Prim2SF x) (Prim2SF y)) as [[| |]|]; simpl; congruence.
Qed.

Lemma leb_ltb_asym (x y : float) : (x <=? y) = true -> (y <? x) = false.
Proof.
  rewrite ltb_spec, leb_spec. unfold SFltb, SFleb.
  rewrite (SFcompare_antisym (Prim2SF x) (Prim2SF y)).
  destruct (SFcompare (Prim2SF x) (Prim2SF y)) as [[| |]|]; simpl; congruence.
Qed.

(** Two numbers are ordered unless one is a NaN. *)
Lemma ltb_negb_leb (x y : float) :
  PrimFloat.is_nan x = false -> PrimFloat.is_nan y = false ->
  (x <? y) = negb (y <=? x).
Proof.
  rewrite !is_nan_Prim2SF, ltb_spec, leb_spec. unfold SFltb, SFleb. intros Hx Hy.
  rewrite (SFcompare_antisym (Prim2SF x) (Prim2SF y)).
  destruct (SFcompare (Prim2SF x) (Prim2SF y)) as [[| |]|] eqn:E; simpl; try reflexivity.
  destruct (SFcompare_None _ _ E); contradiction.
Qed.

(** A number at or above [d] is not below a smaller [c]. *)
Lemma leb_above (c d x : float) :
  (c <? d) = true -> (d <=? x) = true -> (x <? c) = false.
Proof.
  rewrite !ltb_spec, leb_spec. unfold SFltb at 1. intros Hcd Hdx.
  destruct (SFcompare (Prim2SF c) (Prim2SF d)) as [[| |]|] eqn:E; try discriminate.
  pose proof (SFcompare_lt_le_trans _ _ _ E Hdx) as Hcx.
  unfold SFltb. rewrite (SFcompare_antisym (Prim2SF c) (Prim2SF x)), Hcx. reflexivity.
Qed.

(** An [int] and a [float] are ordered unless the [float] is a NaN. *)
Lemma cmp_Z_SF_None (z : Z) (x : spec_float) :
  cmp_Z_SF z x = None -> x = S754_nan.
Proof. destruct x; simpl; intros H; try discriminate; reflexivity. Qed.

Lemma is_Lt_negb_is_Ge (c : option comparison) :
  c <> None -> is_Lt c = negb (is_Ge c).
Proof. destruct c as [[| |]|]; simpl; congruence. Qed.

Lemma is_Gt_negb_is_Le (c : option comparison) :
  c <> None -> is_Gt c = negb (is_Le c).
Proof. destruct c as [[| |]|]; simpl; congruence. Qed.

End FloatOrder.

(** Python's order on numbers: [a < b] is the negation of [b <= a] unless
    one of them is a NaN. *)
Lemma lt_negb_le (a b : pynum) :
  PyNum.is_nan a = false -> PyNum.is_nan b = false ->
  PyNum.lt a b = negb (PyNum.le b a).
Proof.
  destruct a as [x|x], b as [y|y]; simpl; intros Ha Hb.
  - apply Z.ltb_antisym.
  - apply is_Lt_negb_is_Ge. intros E. apply cmp_Z_SF_None in E.
    apply is_nan_Prim2SF in Hb. contradiction.
  - apply is_Gt_negb_is_Le. intros E. apply cmp_Z_SF_None in E.
    apply is_nan_Prim2SF in Ha. contradiction.
  - apply ltb_negb_leb; assumption.
Qed.

(** ** Running a function against a device *)

Lemma run_bind (D : Instrument) {A B : Type} (p : prog A) (f : A -> prog B) (s : dev_state D) :
  run D (bind p f) s =
  match run D p s with
  | (Returned a, t, s') => let '(o, t', s'') := run D (f a) s' in (o, (t ++ t')%list, s'')
  | (Raised e, t, s') => (Raised e, t, s')
  end.
Proof.
  revert s. induction p as [a|e|cmd k IH|cmd k IH|n k IH]; intros s; simpl.
  - destruct (run D (f a) s) as [[o t] s']. reflexivity.
  - reflexivity.
  - destruct (dev_write D cmd s) as [s1|]; [|reflexivity].
    rewrite IH. destruct (run D k s1) as [[[a|e] t] s2]; [|reflexivity].
    destruct (run D (f a) s2) as [[o t'] s3]. reflexivity.
  - destruct (dev_query D cmd s) as [[r s1]|]; [|reflexivity].
    rewrite IH. destruct (run D (k r) s1) as [[[a|e] t] s2]; [|reflexivity].
    destruct (run D (f a) s2) as [[o t'] s3]. reflexivity.
  - destruct (dev_read_bytes D n s) as [[d s1]|]; [|reflexivity].
    rewrite IH. destruct (run D (k d) s1) as [[[a|e] t] s2]; [|reflexivity].
    destruct (run D (f a) s2) as [[o t'] s3]. reflexivity.
Qed.

Lemma run_query (D : Instrument) {A : Type} (cmd r : string) (f : string -> prog A)
  (s s' : dev_state D) :
  dev_query D cmd s = Some (r, s') ->
  run D (bind (query cmd) f) s =
  let '(o, t, s'') := run D (f r) s' in (o, OpQuery cmd :: t, s'').
Proof. intros H. simpl. rewrite H. reflexivity. Qed.

Lemma run_write (D : Instrument) {A : Type} (cmd : string) (f : unit -> prog A)
  (s s' : dev_state D) :
  dev_write D cmd s = Some s' ->
  run D (bind (write cmd) f) s =
  let '(o, t, s'') := run D (f tt) s' in (o, OpWrite cmd :: t, s'').
Proof. intros H. simpl. rewrite H. reflexivity. Qed.

Lemma run_read_bytes (D : Instrument) {A : Type} (n : Z) (d : list byte)
  (f : list byte -> prog A) (s s' : dev_state D) :
  dev_read_bytes D n s = Some (d, s') ->
  run D (bind (read_bytes n) f) s =
  let '(o, t, s'') := run D (f d) s' in (o, OpRead n :: t, s'').
Proof. intros H. simpl. rewrite H. reflexivity. Qed.

Lemma bind_int_ {A : Type} (r : string) (z : Z) (f : Z -> prog A) :
  py_int r = Some z -> bind (int_ r) f = f z.
Proof. intros H. unfold int_. rewrite H. reflexivity. Qed.

Lemma bind_float_ {A : Type} (r : string) (x : float) (f : float -> prog A) :
  py_float r = Some x -> bind (float_ r) f = f x.
Proof. intros H. unfold float_. rewrite H. reflexivity. Qed.

Lemma bind_lift_inr {A B : Type} (a : A) (f : A -> prog B) :
  bind (lift (inr a)) f = f a.
Proof. reflexivity. Qed.

(** One call of the function, answered as the hypothesis [H] says. *)
Ltac step H :=
  first
    [ rewrite (run_query _ _ _ _ _ _ H)
    | rewrite (run_write _ _ _ _ _ H)
    | rewrite (run_read_bytes _ _ _ _ _ _ H)
    | rewrite (bind_int_ _ _ _ H)
    | rewrite (bind_float_ _ _ _ H) ].

Lemma run_get_uncertainty (D : Instrument) (s s' : dev_state D) (r : string) (mode : Z) :
  dev_query D "FUNC?" s = Some (r, s') ->
  mode_of r = Some mode ->
  run D get_uncertainty s =
  let '(o, t, s'') :=
    run D (if mode =? 1 then get_uncertainty_DCV_sampling
           else if mode =? 12 then get_uncertainty_direct_sampling
           else if mode =? 14 then Ret [PyInt 1; PyInt 1]
           else Raise UnsupportedMode) s' in
  (o, OpQuery "FUNC?" :: t, s'').
Proof.
  intros Hq Hm. unfold get_uncertainty.
  step Hq. unfold mode_of in Hm. step Hm. reflexivity.
Qed.

(** C9. When the device reports a function mode other than 1, 12 and 14
    (99, say), [get_uncertainty] raises the unsupported-mode error, and
    the query of the function mode is the only call it has issued. *)
Theorem get_uncertainty_unsupported_mode
  (D : Instrument) (s s' : dev_state D) (r : string) (mode : Z) :
  dev_query D "FUNC?" s = Some (r, s') ->
  mode_of r = Some mode ->
  mode <> 1 -> mode <> 12 -> mode <> 14 ->
  run D get_uncertainty s = (Raised UnsupportedMode, [OpQuery "FUNC?"], s').
Proof.
  intros Hq Hm H1 H12 H14.
  rewrite (run_get_uncertainty D s s' r mode Hq Hm).
  apply Z.eqb_neq in H1, H12, H14. rewrite H1, H12, H14. reflexivity.
Qed.

Lemma get_uncertainty_unsupported_mode_witness :
  run (synthetic [("FUNC?", "99, 10.0")] []) get_uncertainty tt
  = (Raised UnsupportedMode, [OpQuery "FUNC?"], tt).
Proof.
  apply (get_uncertainty_unsupported_mode
           (synthetic [("FUNC?", "99, 10.0")] []) tt tt "99, 10.0" 99);
    [reflexivity | reflexivity | lia | lia | lia].
Defined.

(** C8. When the device reports function mode 14, [get_uncertainty]
    returns the placeholder [[1, 1]] and asks the device nothing else,
    so no other answer of the device can change the result. *)
Theorem get_uncertainty_mode_14
  (D : Instrument) (s s' : dev_state D) (r : string) :
  dev_query D "FUNC?" s = Some (r, s') ->
  mode_of r = Some 14 ->
  run D get_uncertainty s = (Returned [PyInt 1; PyInt 1], [OpQuery "FUNC?"], s').
Proof.
  intros Hq Hm. rewrite (run_get_uncertainty D s s' r 14 Hq Hm). reflexivity.
Qed.

Lemma get_uncertainty_mode_14_witness :
  run (synthetic [("FUNC?", "14, 10.0"); ("APER?", "x"); ("RANGE?", "y")] []) get_uncertainty tt
  = (Returned [PyInt 1; PyInt 1], [OpQuery "FUNC?"], tt).
Proof.
  apply (get_uncertainty_mode_14
           (synthetic [("FUNC?", "14, 10.0"); ("APER?", "x"); ("RANGE?", "y")] [])
           tt tt "14, 10.0");
    reflexivity.
Defined.

(** The divisions of the two estimators: the divisor is a power of two,
    neither zero nor too large for a [float]. *)
Lemma truediv_percent :
  truediv (PyFloat 0.02) (PyInt 100) = inr (PyFloat 0.0002).
Proof. vm_compute. reflexivity. Qed.

Lemma truediv_range_2_16 (R : float) :
  truediv (PyFloat R) (PyInt (2 ^ 16)) = inr (PyFloat (R / 65536)).
Proof. vm_compute. reflexivity. Qed.

Lemma truediv_range_bits (R T_aper : float) :
  truediv (PyFloat R) (PyInt (2 ^ fst (bits_cutoff_3dB T_aper)))
  = inr (PyFloat (R / float_of_int (2 ^ fst (bits_cutoff_3dB T_aper)))).
Proof.
  unfold bits_cutoff_3dB.
  destruct (T_aper <? 1e-6)%float; [vm_compute; reflexivity|].
  destruct (T_aper <? 3e-6)%float; [vm_compute; reflexivity|].
  destruct (T_aper <? 6e-6)%float; [vm_compute; reflexivity|].
  destruct (T_aper <? 100e-6)%float; vm_compute; reflexivity.
Qed.

Lemma run_get_uncertainty_direct_sampling
  (D : Instrument) (s s' : dev_state D) (r : string) (R : float) :
  dev_query D "RANGE?" s = Some (r, s') ->
  py_float r = Some R ->
  run D get_uncertainty_direct_sampling s
  = (Returned [PyFloat 0.0002; PyFloat (R / 65536)], [OpQuery "RANGE?"], s').
Proof.
  intros Hq Hf. unfold get_uncertainty_direct_sampling.
  rewrite truediv_percent, bind_lift_inr.
  step Hq. step Hf.
  rewrite truediv_range_2_16, bind_lift_inr. reflexivity.
Qed.

Lemma run_get_uncertainty_DCV_sampling
  (D : Instrument) (s s1 s2 : dev_state D) (ra rr : string) (T_aper R : float) :
  dev_query D "APER?" s = Some (ra, s1) ->
  py_float ra = Some T_aper ->
  dev_query D "RANGE?" s1 = Some (rr, s2) ->
  py_float rr = Some R ->
  run D get_uncertainty_DCV_sampling s
  = (Returned [PyFloat 14e-6;
               PyFloat (3e-6 + R / float_of_int (2 ^ fst (bits_cutoff_3dB T_aper)))],
     [OpQuery "APER?"; OpQuery "RANGE?"], s2).
Proof.
  intros Hqa Hfa Hqr Hfr. unfold get_uncertainty_DCV_sampling.
  step Hqa. step Hfa.
  pose proof (truediv_range_bits R T_aper) as Hdiv.
  destruct (bits_cutoff_3dB T_aper) as [bits cutoff_3dB]. simpl fst in Hdiv.
  step Hqr. step Hfr.
  rewrite Hdiv, bind_lift_inr. reflexivity.
Qed.

(** C5. When the device reports function mode 12, [get_uncertainty] asks
    for the range [R] and returns [[0.0002, R / 65536]]; with the range
    [1] that is [[0.0002, 1 / 65536]]. *)
Theorem get_uncertainty_mode_12
  (D : Instrument) (s s1 s2 : dev_state D) (rf rr : string) (R : float) :
  dev_query D "FUNC?" s = Some (rf, s1) ->
  mode_of rf = Some 12 ->
  dev_query D "RANGE?" s1 = Some (rr, s2) ->
  py_float rr = Some R ->
  run D get_uncertainty s
  = (Returned [PyFloat 0.0002; PyFloat (R / 65536)],
     [OpQuery "FUNC?"; OpQuery "RANGE?"], s2).
Proof.
  intros Hqf Hm Hqr Hfr.
  rewrite (run_get_uncertainty D s s1 rf 12 Hqf Hm).
  change (12 =? 1) with false. change (12 =? 12) with true. cbv iota.
  rewrite (run_get_uncertainty_direct_sampling D s1 s2 rr R Hqr Hfr). reflexivity.
Qed.

Lemma get_uncertainty_mode_12_witness :
  run (synthetic [("FUNC?", "12, 1"); ("RANGE?", "1")] []) get_uncertainty tt
  = (Returned [PyFloat 0.0002; PyFloat (1 / 65536)],
     [OpQuery "FUNC?"; OpQuery "RANGE?"], tt).
Proof.
  apply (get_uncertainty_mode_12
           (synthetic [("FUNC?", "12, 1"); ("RANGE?", "1")] []) tt tt tt "12, 1" "1" 1);
    vm_compute; reflexivity.
Defined.

(** C4. When the device reports function mode 1, [get_uncertainty] asks
    for the aperture time and for the range [R], and returns
    [[14e-6, 3e-6 + R / 2**bits]], where [bits] is the entry of the
    aperture table for the aperture answered: 15 below 1e-6, else 16
    below 3e-6, else 17 below 6e-6, else 18 below 100e-6, else 21.  With
    the aperture [2e-6] and the range [10] that is
    [[14e-6, 3e-6 + 10 / 65536]]. *)
Theorem get_uncertainty_mode_1
  (D : Instrument) (s s1 s2 s3 : dev_state D) (rf ra rr : string) (T_aper R : float) :
  dev_query D "FUNC?" s = Some (rf, s1) ->
  mode_of rf = Some 1 ->
  dev_query D "APER?" s1 = Some (ra, s2) ->
  py_float ra = Some T_aper ->
  dev_query D "RANGE?" s2 = Some (rr, s3) ->
  py_float rr = Some R ->
  exists bits : Z,
    run D get_uncertainty s
    = (Returned [PyFloat 14e-6; PyFloat (3e-6 + R / float_of_int (2 ^ bits))],
       [OpQuery "FUNC?"; OpQuery "APER?"; OpQuery "RANGE?"], s3) /\
    (((T_aper <? 1e-6)%float = true /\ bits = 15) \/
     ((T_aper <? 1e-6)%float = false /\ (T_aper <? 3e-6)%float = true /\ bits = 16) \/
     ((T_aper <? 1e-6)%float = false /\ (T_aper <? 3e-6)%float = false /\
      (T_aper <? 6e-6)%float = true /\ bits = 17) \/
     ((T_aper <? 1e-6)%float = false /\ (T_aper <? 3e-6)%float = false /\
      (T_aper <? 6e-6)%float = false /\ (T_aper <? 100e-6)%float = true /\ bits = 18) \/
     ((T_aper <? 1e-6)%float = false /\ (T_aper <? 3e-6)%float = false /\
      (T_aper <? 6e-6)%float = false /\ (T_aper <? 100e-6)%float = false /\ bits = 21)).
Proof.
  intros Hqf Hm Hqa Hfa Hqr Hfr.
  exists (fst (bits_cutoff_3dB T_aper)). split.
  - rewrite (run_get_uncertainty D s s1 rf 1 Hqf Hm).
    change (1 =? 1) with true. cbv iota.
    rewrite (run_get_uncertainty_DCV_sampling D s1 s2 s3 ra rr T_aper R Hqa Hfa Hqr Hfr).
    reflexivity.
  - unfold bits_cutoff_3dB.
    destruct (T_aper <? 1e-6)%float; [left; split; reflexivity|].
    destruct (T_aper <? 3e-6)%float; [right; left; repeat split|].
    destruct (T_aper <? 6e-6)%float; [right; right; left; repeat split|].
    destruct (T_aper <? 100e-6)%float;
      [right; right; right; left; repeat split | right; right; right; right; repeat split].
Qed.

Lemma get_uncertainty_mode_1_witness :
  run (synthetic [("FUNC?", "1, 10"); ("APER?", "2e-6"); ("RANGE?", "10")] [])
      get_uncertainty tt
  = (Returned [PyFloat 14e-6; PyFloat (3e-6 + 10 / 65536)],
     [OpQuery "FUNC?"; OpQuery "APER?"; OpQuery "RANGE?"], tt).
Proof.
  pose proof (get_uncertainty_mode_1
                (synthetic [("FUNC?", "1, 10"); ("APER?", "2e-6"); ("RANGE?", "10")] [])
                tt tt tt tt "1, 10" "2e-6" "10" 2e-6 10) as Hmode.
  do 6 (let H := fresh in
        match type of Hmode with
        | ?P -> _ => assert (H : P) by (vm_compute; reflexivity); specialize (Hmode H); clear H
        end).
  destruct Hmode as (bits & Hrun & Hrow).
  assert (Hbits : bits = 16).
  { destruct Hrow as [[H _]|[(_ & _ & H)|[(_ & H & _)|[(_ & H & _)|(_ & H & _)]]]];
      [vm_compute in H; discriminate H | exact H | | | ];
      vm_compute in H; discriminate H. }
  rewrite Hrun, Hbits. reflexivity.
Defined.

(** ** The aperture table and the aperture check *)

Local Open Scope float_scope.

(** C3. The bits of the DCV-sampling estimator follow the table, read
    from the top, the first row that matches winning: below 1 us, 15;
    else below 3 us, 16; else below 6 us, 17; else below 100 us, 18;
    else 21.  Row by row that is the half-open intervals [1 us, 3 us),
    [3 us, 6 us), [6 us, 100 us) and, from 100 us on, 21; and at the
    boundaries 999 ns gives 15, 1000 ns gives 16, 2999 ns gives 16,
    3000 ns gives 17, and likewise around 6 us and 100 us. *)
Theorem bits_table :
  (forall T_aper : float,
     let bits := fst (bits_cutoff_3dB T_aper) in
     ((T_aper <? 1e-6) = true -> bits = 15%Z) /\
     ((T_aper <? 1e-6) = false -> (T_aper <? 3e-6) = true -> bits = 16%Z) /\
     ((T_aper <? 1e-6) = false -> (T_aper <? 3e-6) = false ->
      (T_aper <? 6e-6) = true -> bits = 17%Z) /\
     ((T_aper <? 1e-6) = false -> (T_aper <? 3e-6) = false ->
      (T_aper <? 6e-6) = false -> (T_aper <? 100e-6) = true -> bits = 18%Z) /\
     ((T_aper <? 1e-6) = false -> (T_aper <? 3e-6) = false ->
      (T_aper <? 6e-6) = false -> (T_aper <? 100e-6) = false -> bits = 21%Z) /\
     ((1e-6 <=? T_aper) = true -> (T_aper <? 3e-6) = true -> bits = 16%Z) /\
     ((3e-6 <=? T_aper) = true -> (T_aper <? 6e-6) = true -> bits = 17%Z) /\
     ((6e-6 <=? T_aper) = true -> (T_aper <? 100e-6) = true -> bits = 18%Z) /\
     ((100e-6 <=? T_aper) = true -> bits = 21%Z)) /\
  fst (bits_cutoff_3dB 999e-9) = 15%Z /\
  fst (bits_cutoff_3dB 1000e-9) = 16%Z /\
  fst (bits_cutoff_3dB 2999e-9) = 16%Z /\
  fst (bits_cutoff_3dB 3000e-9) = 17%Z /\
  fst (bits_cutoff_3dB 5999e-9) = 17%Z /\
  fst (bits_cutoff_3dB 6000e-9) = 18%Z /\
  fst (bits_cutoff_3dB 99999e-9) = 18%Z /\
  fst (bits_cutoff_3dB 100000e-9) = 21%Z.
Proof.
  split; [|repeat split; vm_compute; reflexivity].
  intros T_aper bits. subst bits. unfold bits_cutoff_3dB.
  assert (H13 : (1e-6 <? 3e-6) = true) by (vm_compute; reflexivity).
  assert (H16 : (1e-6 <? 6e-6) = true) by (vm_compute; reflexivity).
  assert (H1h : (1e-6 <? 100e-6) = true) by (vm_compute; reflexivity).
  assert (H36 : (3e-6 <? 6e-6) = true) by (vm_compute; reflexivity).
  assert (H3h : (3e-6 <? 100e-6) = true) by (vm_compute; reflexivity).
  assert (H6h : (6e-6 <? 100e-6) = true) by (vm_compute; reflexivity).
  repeat split.
  - intros ->. reflexivity.
  - intros -> ->. reflexivity.
  - intros -> -> ->. reflexivity.
  - intros -> -> -> ->. reflexivity.
  - intros -> -> -> ->. reflexivity.
  - intros Hlo ->. rewrite (leb_ltb_asym _ _ Hlo). reflexivity.
  - intros Hlo ->.
    rewrite (leb_above 1e-6 3e-6 T_aper H13 Hlo), (leb_ltb_asym _ _ Hlo). reflexivity.
  - intros Hlo ->.
    rewrite (leb_above 1e-6 6e-6 T_aper H16 Hlo), (leb_above 3e-6 6e-6 T_aper H36 Hlo),
      (leb_ltb_asym _ _ Hlo).
    reflexivity.
  - intros Hlo.
    rewrite (leb_above 1e-6 100e-6 T_aper H1h Hlo), (leb_above 3e-6 100e-6 T_aper H3h Hlo),
      (leb_above 6e-6 100e-6 T_aper H6h Hlo), (leb_ltb_asym _ _ Hlo).
    reflexivity.
Qed.

Lemma bits_table_witness :
  (1e-6 <=? 2e-6) = true /\ (2e-6 <? 3e-6) = true /\ fst (bits_cutoff_3dB 2e-6) = 16%Z.
Proof.
  split; [vm_compute; reflexivity|]. split; [vm_compute; reflexivity|].
  apply (proj1 bits_table 2e-6); vm_compute; reflexivity.
Defined.

(** C6. [T_aper_check] accepts a number exactly when it lies between
    500 ns and 1 s, both included; the number is any [int] or [float]
    other than a NaN.  It rejects 499e-9 and 1.000001, and accepts 500e-9
    and 1.0. *)
Theorem T_aper_check_range :
  (forall T_aper : pynum,
     PyNum.is_nan T_aper = false ->
     T_aper_check T_aper = true <->
     PyNum.le (PyFloat 500e-9) T_aper = true /\ PyNum.le T_aper (PyInt 1) = true) /\
  T_aper_check (PyFloat 499e-9) = false /\
  T_aper_check (PyFloat 500e-9) = true /\
  T_aper_check (PyFloat 1.0) = true /\
  T_aper_check (PyFloat 1.000001) = false.
Proof.
  split; [|repeat split; vm_compute; reflexivity].
  intros T_aper Hnan. unfold T_aper_check, PyNum.gt.
  rewrite (lt_negb_le T_aper (PyFloat 500e-9) Hnan) by (vm_compute; reflexivity).
  rewrite (lt_negb_le (PyInt 1) T_aper) by (assumption || reflexivity).
  destruct (PyNum.le (PyFloat 500e-9) T_aper), (PyNum.le T_aper (PyInt 1)); simpl;
    intuition congruence.
Qed.

Lemma T_aper_check_range_witness :
  PyNum.is_nan (PyFloat 3e-6) = false /\
  (T_aper_check (PyFloat 3e-6) = true <->
   PyNum.le (PyFloat 500e-9) (PyFloat 3e-6) = true /\
   PyNum.le (PyFloat 3e-6) (PyInt 1) = true).
Proof.
  split; [vm_compute; reflexivity|].
  apply (proj1 T_aper_check_range (PyFloat 3e-6)). vm_compute. reflexivity.
Defined.

(** A NaN passes the check: it is neither below 500 ns nor above 1 s. *)
Remark T_aper_check_nan : T_aper_check (PyFloat nan) = true.
Proof. vm_compute. reflexivity. Qed.

Local Close Scope float_scope.

(** ** Packing, the inverse of [struct.unpack] *)

Section Packing.

Lemma byte_of_Z_val (z : Z) : Z.of_N (Byte.to_N (byte_of_Z z)) = z mod 256.
Proof.
  unfold byte_of_Z.
  assert (Hb : 0 <= z mod 256 < 256) by (apply Z.mod_pos_bound; lia).
  destruct (Byte.of_N (Z.to_N (z mod 256))) as [b|] eqn:E.
  - apply Byte.to_of_N in E. rewrite E. apply Z2N.id. lia.
  - apply Byte.of_N_None_iff in E. lia.
Qed.

Lemma length_be_bytes (w : nat) (z : Z) : List.length (be_bytes w z) = w.
Proof.
  revert z. induction w as [|w IH]; intros z; simpl; [reflexivity|].
  rewrite length_app, IH. simpl. lia.
Qed.

Lemma be_unsigned_snoc (l : list byte) (b : byte) :
  Struct.be_unsigned (l ++ [b]) = Struct.be_unsigned l * 256 + Z.of_N (Byte.to_N b).
Proof. unfold Struct.be_unsigned. rewrite fold_left_app. reflexivity. Qed.

Lemma be_unsigned_be_bytes (w : nat) (z : Z) :
  Struct.be_unsigned (be_bytes w z) = z mod 256 ^ Z.of_nat w.
Proof.
  revert z. induction w as [|w IH]; intros z.
  - simpl. rewrite Z.mod_1_r. reflexivity.
  - cbn [be_bytes]. rewrite be_unsigned_snoc, IH, byte_of_Z_val.
    rewrite Nat2Z.inj_succ, Z.pow_succ_r by lia.
    rewrite (Z.rem_mul_r z 256 (256 ^ Z.of_nat w)) by lia. lia.
Qed.

(** Reading back the bytes of a signed integer gives the integer. *)
Lemma be_signed_be_bytes (w : nat) (z : Z) :
  (0 < w)%nat -> fits w z -> Struct.be_signed (be_bytes w z) = z.
Proof.
  intros Hw [Hlo Hhi]. unfold Struct.be_signed.
  rewrite be_unsigned_be_bytes, length_be_bytes.
  replace (256 ^ Z.of_nat w) with (2 ^ (8 * Z.of_nat w))
    by (rewrite Z.pow_mul_r by lia; reflexivity).
  set (k := 8 * Z.of_nat w) in *.
  assert (Hk : 2 ^ k = 2 * 2 ^ (k - 1)).
  { rewrite <- Z.pow_succ_r by lia. f_equal. lia. }
  assert (Hp : 0 < 2 ^ (k - 1)) by (apply Z.pow_pos_nonneg; lia).
  destruct (Z.ltb_spec (z mod 2 ^ k) (2 ^ (k - 1))) as [Hlt|Hge].
  - destruct (Z.neg_nonneg_cases z) as [Hneg|Hpos].
    + rewrite <- (Z.mod_add z 1 (2 ^ k)) in Hlt by lia.
      rewrite Z.mod_small in Hlt by lia. lia.
    + apply Z.mod_small. lia.
  - destruct (Z.neg_nonneg_cases z) as [Hneg|Hpos].
    + rewrite <- (Z.mod_add z 1 (2 ^ k)) by lia.
      rewrite Z.mod_small by lia. lia.
    + rewrite Z.mod_small in Hge by lia. lia.
Qed.

Lemma length_pack (w : nat) (raw : list Z) :
  List.length (pack w raw) = (w * List.length raw)%nat.
Proof.
  unfold pack. induction raw as [|z raw IH]; simpl; [lia|].
  rewrite length_app, length_be_bytes, IH. lia.
Qed.

Lemma calcsize_repeat (c : ascii) (w n : nat) :
  Struct.code_size c = Some w ->
  Struct.calcsize (repeat c n) = Some (w * n)%nat.
Proof.
  intros Hc. induction n as [|n IH]; simpl.
  - f_equal. lia.
  - rewrite Hc, IH. f_equal. lia.
Qed.

Lemma unpack_items_pack (c : ascii) (w : nat) (raw : list Z) :
  Struct.code_size c = Some w -> (0 < w)%nat -> Forall (fits w) raw ->
  Struct.unpack_items (repeat c (List.length raw)) (pack w raw) = raw.
Proof.
  intros Hc Hw Hfits. induction Hfits as [|z raw Hz Hraw IH]; [reflexivity|].
  cbn [List.length repeat Struct.unpack_items]. rewrite Hc.
  unfold pack. cbn [map List.concat]. fold (pack w raw).
  rewrite firstn_app, skipn_app, length_be_bytes, Nat.sub_diag.
  rewrite firstn_all2 by (rewrite length_be_bytes; lia).
  rewrite skipn_all2 by (rewrite length_be_bytes; lia).
  cbn [firstn skipn]. rewrite app_nil_r. cbn [app].
  rewrite be_signed_be_bytes by assumption. f_equal. exact IH.
Qed.

Lemma concat_repeat_single (c : ascii) (n : nat) :
  list_ascii_of_string (String.concat "" (repeat (String c "") n)) = repeat c n.
Proof.
  induction n as [|n IH]; [reflexivity|].
  destruct n as [|n]; [reflexivity|].
  change (repeat (String c "") (S (S n)))
    with (String c "" :: repeat (String c "") (S n)).
  change (repeat c (S (S n))) with (c :: repeat c (S n)).
  rewrite <- IH. reflexivity.
Qed.

(** [struct.unpack] of what was packed gives the integers back. *)
Lemma unpack_pack (c : ascii) (w : nat) (raw : list Z) :
  Struct.code_size c = Some w -> (0 < w)%nat -> Forall (fits w) raw ->
  Struct.unpack (">" ++ str_mul (String c "") (Z.of_nat (List.length raw))) (pack w raw)
  = inr raw.
Proof.
  intros Hc Hw Hfits. unfold Struct.unpack, str_mul. rewrite Nat2Z.id.
  cbn [append]. rewrite concat_repeat_single.
  rewrite (calcsize_repeat c w _ Hc), length_pack, Nat.eqb_refl.
  rewrite (unpack_items_pack c w raw Hc Hw Hfits). reflexivity.
Qed.

End Packing.

(** ** Reading the memory *)

Lemma run_memory_format_3 (D : Instrument) (s s' : dev_state D) :
  reports_format D s 3 s' ->
  run D conversion_format_bytes_per_sample s = (Returned ("i", 4), [OpQuery "MFORMAT?"], s').
Proof.
  intros (r1 & s1 & Hq & Hi & Hs). simpl in Hs. subst s'.
  unfold conversion_format_bytes_per_sample.
  step Hq. step Hi. reflexivity.
Qed.

Lemma run_memory_format_not_3 (D : Instrument) (s s' : dev_state D) (code : Z) :
  reports_format D s code s' -> code <> 3 ->
  run D conversion_format_bytes_per_sample s =
  (if code =? 2 then Returned ("h", 2) else Raised UnsupportedFormat,
   [OpQuery "MFORMAT?"; OpQuery "MFORMAT?"], s').
Proof.
  intros (r1 & s1 & Hq1 & Hi1 & Hs) Hne.
  apply Z.eqb_neq in Hne. rewrite Hne in Hs. destruct Hs as (r2 & Hq2 & Hi2).
  unfold conversion_format_bytes_per_sample.
  step Hq1. step Hi1. rewrite Hne. step Hq2. step Hi2.
  destruct (code =? 2); reflexivity.
Qed.

(** Once the format is chosen, the function sends [RMEM] and asks for
    [bytes_per_sample * N_SAMPLES] bytes. *)
Lemma read_binary_mem_reads
  (D : Instrument) (s s1 s2 : dev_state D) (N_SAMPLES : Z)
  (conversion_format : string) (bytes_per_sample : Z) (t : list op) :
  run D conversion_format_bytes_per_sample s
  = (Returned (conversion_format, bytes_per_sample), t, s1) ->
  dev_write D ("RMEM 1," ++ str_int N_SAMPLES) s1 = Some s2 ->
  exists rest : list op,
    calls_of (run D (read_binary_mem N_SAMPLES) s)
    = (t ++ OpWrite ("RMEM 1," ++ str_int N_SAMPLES)
         :: OpRead (bytes_per_sample * N_SAMPLES) :: rest)%list.
Proof.
  intros Hfmt Hw. unfold read_binary_mem. rewrite run_bind, Hfmt. cbv iota beta.
  rewrite (run_write D _ _ _ _ Hw).
  match goal with
  | |- context [run D (bind (read_bytes ?n) ?f) s2] =>
    change (run D (bind (read_bytes n) f) s2)
      with (match dev_read_bytes D n s2 with
            | Some (d, s') =>
              let '(o, t, s'') := run D (f d) s' in (o, OpRead n :: t, s'')
            | None => (Raised VisaIOError, [OpRead n], s2)
            end)
  end.
  destruct (dev_read_bytes D (bytes_per_sample * N_SAMPLES) s2) as [[d s3]|].
  - match goal with
    | |- context [run D ?p s3] => destruct (run D p s3) as [[o t'] s4]
    end.
    exists t'. reflexivity.
  - exists []. reflexivity.
Qed.

(** C2. When the device reports memory format 2, [read_binary_mem]
    decodes with the two-byte code [h] and [bytes_per_sample = 2], and
    reads two bytes per sample; when it reports 3, with the four-byte
    code [i] and [bytes_per_sample = 4], and reads four bytes per sample;
    when it reports anything else, the unsupported-format error is
    raised and the only calls issued are the queries of the format:
    neither the [RMEM] command nor a read. *)
Theorem memory_format_mapping
  (D : Instrument) (s s' : dev_state D) (code : Z) :
  reports_format D s code s' ->
  (code = 2 ->
   result_of (run D conversion_format_bytes_per_sample s) = Returned ("h", 2) /\
   Struct.code_size "h" = Some 2%nat /\
   forall (N_SAMPLES : Z) (s2 : dev_state D),
     dev_write D ("RMEM 1," ++ str_int N_SAMPLES) s' = Some s2 ->
     exists rest : list op,
       calls_of (run D (read_binary_mem N_SAMPLES) s)
       = ([OpQuery "MFORMAT?"; OpQuery "MFORMAT?";
           OpWrite ("RMEM 1," ++ str_int N_SAMPLES); OpRead (2 * N_SAMPLES)] ++ rest)%list) /\
  (code = 3 ->
   result_of (run D conversion_format_bytes_per_sample s) = Returned ("i", 4) /\
   Struct.code_size "i" = Some 4%nat /\
   forall (N_SAMPLES : Z) (s2 : dev_state D),
     dev_write D ("RMEM 1," ++ str_int N_SAMPLES) s' = Some s2 ->
     exists rest : list op,
       calls_of (run D (read_binary_mem N_SAMPLES) s)
       = ([OpQuery "MFORMAT?";
           OpWrite ("RMEM 1," ++ str_int N_SAMPLES); OpRead (4 * N_SAMPLES)] ++ rest)%list) /\
  (code <> 2 -> code <> 3 ->
   forall N_SAMPLES : Z,
     run D (read_binary_mem N_SAMPLES) s
     = (Raised UnsupportedFormat, [OpQuery "MFORMAT?"; OpQuery "MFORMAT?"], s')).
Proof.
  intros Hrep. split; [|split].
  - intros ->.
    pose proof (run_memory_format_not_3 D s s' 2 Hrep ltac:(lia)) as Hfmt.
    change (2 =? 2) with true in Hfmt. cbv iota in Hfmt.
    split; [rewrite Hfmt; reflexivity|]. split; [reflexivity|].
    intros N_SAMPLES s2 Hw.
    exact (read_binary_mem_reads D s s' s2 N_SAMPLES "h" 2 _ Hfmt Hw).
  - intros ->.
    pose proof (run_memory_format_3 D s s' Hrep) as Hfmt.
    split; [rewrite Hfmt; reflexivity|]. split; [reflexivity|].
    intros N_SAMPLES s2 Hw.
    exact (read_binary_mem_reads D s s' s2 N_SAMPLES "i" 4 _ Hfmt Hw).
  - intros H2 H3 N_SAMPLES. unfold read_binary_mem. rewrite run_bind.
    rewrite (run_memory_format_not_3 D s s' code Hrep) by assumption.
    apply Z.eqb_neq in H2. rewrite H2. reflexivity.
Qed.

Lemma memory_format_mapping_witness :
  (result_of (run (synthetic [("MFORMAT?", "2")] []) conversion_format_bytes_per_sample tt)
   = Returned ("h", 2)) /\
  (result_of (run (synthetic [("MFORMAT?", "3")] []) conversion_format_bytes_per_sample tt)
   = Returned ("i", 4)) /\
  run (synthetic [("MFORMAT?", "1")] []) (read_binary_mem 5) tt
  = (Raised UnsupportedFormat, [OpQuery "MFORMAT?"; OpQuery "MFORMAT?"], tt).
Proof.
  split; [|split].
  - apply (memory_format_mapping (synthetic [("MFORMAT?", "2")] []) tt tt 2);
      [|reflexivity].
    exists "2", tt. repeat split. exists "2". split; reflexivity.
  - apply (memory_format_mapping (synthetic [("MFORMAT?", "3")] []) tt tt 3);
      [|reflexivity].
    exists "3", tt. repeat split.
  - apply (memory_format_mapping (synthetic [("MFORMAT?", "1")] []) tt tt 1);
      [|lia|lia].
    exists "1", tt. repeat split. exists "1". split; reflexivity.
Defined.

(** The format is asked for a second time when the first answer is not
    3, so a device whose answer changes in between is read by its second
    answer: here it answers 2, then 3, and the format is refused. *)
Remark format_asked_twice :
  run (scripted []) (read_binary_mem 1) ["2"; "3"; "1.0"]
  = (Raised UnsupportedFormat, [OpQuery "MFORMAT?"; OpQuery "MFORMAT?"], ["1.0"]).
Proof. vm_compute. reflexivity. Qed.

(** C1. For every number of samples [n] and every device that reports
    memory format 2 or 3, accepts the [RMEM] command, delivers the
    big-endian buffer that holds the [n] integers [raw], and answers
    [ISCALE?] with the number [ISCALE], [read_binary_mem] returns [n]
    values, the [i]-th being the [i]-th of [raw] reversed, times
    [ISCALE]. *)
Theorem read_binary_mem_roundtrip
  (D : Instrument) (s0 s1 s2 s3 s4 : dev_state D)
  (n : nat) (code : Z) (w : nat) (raw : list Z) (r : string) (ISCALE : float) :
  (code = 2 /\ w = 2%nat) \/ (code = 3 /\ w = 4%nat) ->
  List.length raw = n ->
  Forall (fits w) raw ->
  reports_format D s0 code s1 ->
  dev_write D ("RMEM 1," ++ str_int (Z.of_nat n)) s1 = Some s2 ->
  dev_read_bytes D (Z.of_nat w * Z.of_nat n) s2 = Some (pack w raw, s3) ->
  dev_query D "ISCALE?" s3 = Some (r, s4) ->
  py_float r = Some ISCALE ->
  exists decoded : list float,
    result_of (run D (read_binary_mem (Z.of_nat n)) s0) = Returned decoded /\
    List.length decoded = n /\
    forall i : nat, (i < n)%nat ->
      nth i decoded 0%float = (float_of_int (nth i (rev raw) 0%Z) * ISCALE)%float.
Proof.
  intros Hcode Hlen Hfits Hrep Hw Hrd Hq Hf.
  exists (rev (map (fun z => (float_of_int z * ISCALE)%float) raw)).
  split; [|split].
  - unfold read_binary_mem. rewrite run_bind. subst n.
    destruct Hcode as [[-> ->]|[-> ->]].
    + rewrite (run_memory_format_not_3 D s0 s1 2 Hrep) by lia.
      change (2 =? 2) with true. cbv iota beta.
      step Hw. step Hrd.
      rewrite (unpack_pack "h" 2 raw), bind_lift_inr
        by (reflexivity || lia || assumption).
      step Hq. step Hf. reflexivity.
    + rewrite (run_memory_format_3 D s0 s1 Hrep). cbv iota beta.
      step Hw. step Hrd.
      rewrite (unpack_pack "i" 4 raw), bind_lift_inr
        by (reflexivity || lia || assumption).
      step Hq. step Hf. reflexivity.
  - rewrite length_rev, length_map. exact Hlen.
  - intros i Hi. rewrite <- map_rev.
    rewrite (nth_indep _ 0%float (float_of_int 0%Z * ISCALE)%float)
      by (rewrite length_map, length_rev; lia).
    apply (map_nth (fun z => (float_of_int z * ISCALE)%float)).
Qed.

Lemma read_binary_mem_roundtrip_witness :
  exists decoded : list float,
    result_of (run (synthetic [("MFORMAT?", "3"); ("ISCALE?", "0.5")]
                              (pack 4 [1; -2; -2147483648; 2147483647]))
                   (read_binary_mem 4) tt)
    = Returned decoded /\
    List.length decoded = 4%nat /\
    forall i : nat, (i < 4)%nat ->
      nth i decoded 0%float
      = (float_of_int (nth i (rev [1; -2; -2147483648; 2147483647]%Z) 0%Z) * 0.5)%float.
Proof.
  apply (read_binary_mem_roundtrip
           (synthetic [("MFORMAT?", "3"); ("ISCALE?", "0.5")]
                      (pack 4 [1; -2; -2147483648; 2147483647]))
           tt tt tt tt tt 4 3 4 [1; -2; -2147483648; 2147483647] "0.5" 0.5).
  - right. split; reflexivity.
  - reflexivity.
  - repeat constructor; vm_compute; discriminate.
  - exists "3", tt. repeat split.
  - reflexivity.
  - reflexivity.
  - reflexivity.
  - vm_compute. reflexivity.
Defined.

(** ** Configuring the multimeter *)

(** On a device that accepts every command, the calls of such a function
    are its writes. *)
Lemma calls_written (D : Instrument) {A : Type} (p : prog A) (s : dev_state D) :
  (forall cmd s, dev_write D cmd s <> None) ->
  write_only p = true ->
  calls_of (run D p s) = map OpWrite (written p).
Proof.
  intros Hacc. revert s.
  induction p as [a|e|cmd k IH|cmd k IH|n k IH]; intros s Hwo; simpl in *;
    try reflexivity; try discriminate.
  destruct (dev_write D cmd s) as [s1|] eqn:E; [|destruct (Hacc cmd s E)].
  specialize (IH s1 Hwo). unfold calls_of in *.
  destruct (run D k s1) as [[o t] s2]. simpl in *. rewrite IH. reflexivity.
Qed.

Lemma configure_DCV_digitalizing_write_only
  (repr_float : float -> string) (samples_per_burst sampling_frequency aper_time max_input : pynum) :
  write_only (configure_DCV_digitalizing repr_float samples_per_burst sampling_frequency
                aper_time max_input) = true.
Proof.
  unfold configure_DCV_digitalizing.
  destruct (truediv (PyInt 1) sampling_frequency); reflexivity.
Qed.

Lemma configure_sub_sampling_write_only
  (repr_float : float -> string) (samples_per_burst effective_sampling_frequency max_input : pynum) :
  write_only (configure_sub_sampling repr_float samples_per_burst
                effective_sampling_frequency max_input) = true.
Proof.
  unfold configure_sub_sampling.
  destruct (truediv (PyInt 1) effective_sampling_frequency); reflexivity.
Qed.

(** A run of [configure_DCV_digitalizing] with its default [max_input],
    the text of a [float] left as it is. *)
Example configure_DCV_digitalizing_run (repr_float : float -> string) :
  calls_of (run (synthetic [] [])
              (configure_DCV_digitalizing repr_float (PyInt 1000) (PyInt 100000)
                 (PyFloat 2e-6) default_max_input) tt)
  = [OpWrite "PRESET DIG"; OpWrite "MEM LIFO"; OpWrite "MFORMAT DINT";
     OpWrite "OFORMAT DINT"; OpWrite ("TIMER " ++ repr_float 1e-5%float);
     OpWrite ("APER " ++ repr_float 2e-6%float); OpWrite "NRDGS 1000, TIMER";
     OpWrite "TRIG EXT"; OpWrite "DCV 1000"; OpWrite "TARM AUTO"].
Proof. vm_compute. reflexivity. Qed.

(** With a sampling frequency of zero the division raises after the
    format has been written. *)
Example configure_DCV_digitalizing_zero (repr_float : float -> string) :
  run (synthetic [] [])
    (configure_DCV_digitalizing repr_float (PyInt 1000) (PyInt 0)
       (PyFloat 1e-6) default_max_input) tt
  = (Raised (ZeroDivisionError "division by zero"),
     [OpWrite "PRESET DIG"; OpWrite "MEM LIFO"; OpWrite "MFORMAT SINT";
      OpWrite "OFORMAT SINT"], tt).
Proof. vm_compute. reflexivity. Qed.

(** C7. [configure_DCV_digitalizing] writes [MFORMAT DINT] and
    [OFORMAT DINT] exactly when [aper_time > 1.4e-6], and [MFORMAT SINT]
    and [OFORMAT SINT] exactly when not; so 2e-6 selects [DINT] and 1e-6
    selects [SINT]. *)
Theorem configure_DCV_digitalizing_format :
  forall (repr_float : float -> string)
         (samples_per_burst sampling_frequency max_input : pynum),
    (forall aper_time : pynum,
       let cmds := written (configure_DCV_digitalizing repr_float samples_per_burst
                              sampling_frequency aper_time max_input) in
       (PyNum.gt aper_time (PyFloat 1.4e-6) = true <->
        In "MFORMAT DINT" cmds /\ In "OFORMAT DINT" cmds) /\
       (PyNum.gt aper_time (PyFloat 1.4e-6) = false <->
        In "MFORMAT SINT" cmds /\ In "OFORMAT SINT" cmds)) /\
    (let cmds := written (configure_DCV_digitalizing repr_float samples_per_burst
                            sampling_frequency (PyFloat 2e-6) max_input) in
     In "MFORMAT DINT" cmds /\ In "OFORMAT DINT" cmds) /\
    (let cmds := written (configure_DCV_digitalizing repr_float samples_per_burst
                            sampling_frequency (PyFloat 1e-6) max_input) in
     In "MFORMAT SINT" cmds /\ In "OFORMAT SINT" cmds).
Proof.
  intros repr_float samples_per_burst sampling_frequency max_input.
  assert (Hgen : forall aper_time : pynum,
    let cmds := written (configure_DCV_digitalizing repr_float samples_per_burst
                           sampling_frequency aper_time max_input) in
    (PyNum.gt aper_time (PyFloat 1.4e-6) = true <->
     In "MFORMAT DINT" cmds /\ In "OFORMAT DINT" cmds) /\
    (PyNum.gt aper_time (PyFloat 1.4e-6) = false <->
     In "MFORMAT SINT" cmds /\ In "OFORMAT SINT" cmds)).
  { intros aper_time. unfold configure_DCV_digitalizing.
    destruct (PyNum.gt aper_time (PyFloat 1.4e-6));
      destruct (truediv (PyInt 1) sampling_frequency) as [e|period];
      simpl; intuition (try discriminate; try congruence). }
  split; [exact Hgen|]. split.
  - apply (Hgen (PyFloat 2e-6)). vm_compute. reflexivity.
  - apply (Hgen (PyFloat 1e-6)). vm_compute. reflexivity.
Qed.

(** C10. The commands [configure_sub_sampling] sends do not depend on
    [max_input]: with two values of it the function is the same, and so
    is every run of it; the fifth command is the literal [SSDC 1]
    whatever the arguments. *)
Theorem configure_sub_sampling_ignores_max_input :
  forall (repr_float : float -> string)
         (samples_per_burst effective_sampling_frequency : pynum)
         (max_input max_input' : pynum),
    configure_sub_sampling repr_float samples_per_burst effective_sampling_frequency max_input
    = configure_sub_sampling repr_float samples_per_burst effective_sampling_frequency max_input' /\
    (forall (D : Instrument) (s : dev_state D),
       run D (configure_sub_sampling repr_float samples_per_burst
                effective_sampling_frequency max_input) s
       = run D (configure_sub_sampling repr_float samples_per_burst
                  effective_sampling_frequency max_input') s) /\
    nth_error (written (configure_sub_sampling repr_float samples_per_burst
                          effective_sampling_frequency max_input)) 4
    = Some "SSDC 1".
Proof.
  intros. split; [reflexivity|]. split; [reflexivity|]. reflexivity.
Qed.

(** * Further properties *)

(** ** The calls a function issues, on any device *)

Lemma calls_query (D : Instrument) {A : Type} (cmd : string) (f : string -> prog A)
  (s : dev_state D) :
  calls_of (run D (bind (query cmd) f) s)
  = OpQuery cmd :: match dev_query D cmd s with
                   | Some (r, s') => calls_of (run D (f r) s')
                   | None => []
                   end.
Proof.
  unfold calls_of. simpl. destruct (dev_query D cmd s) as [[r s']|]; [|reflexivity].
  destruct (run D (f r) s') as [[o t] s'']. reflexivity.
Qed.

Lemma calls_write (D : Instrument) {A : Type} (cmd : string) (f : unit -> prog A)
  (s : dev_state D) :
  calls_of (run D (bind (write cmd) f) s)
  = OpWrite cmd :: match dev_write D cmd s with
                   | Some s' => calls_of (run D (f tt) s')
                   | None => []
                   end.
Proof.
  unfold calls_of. simpl. destruct (dev_write D cmd s) as [s'|]; [|reflexivity].
  destruct (run D (f tt) s') as [[o t] s'']. reflexivity.
Qed.

Lemma calls_read_bytes (D : Instrument) {A : Type} (n : Z) (f : list byte -> prog A)
  (s : dev_state D) :
  calls_of (run D (bind (read_bytes n) f) s)
  = OpRead n :: match dev_read_bytes D n s with
                | Some (d, s') => calls_of (run D (f d) s')
                | None => []
                end.
Proof.
  unfold calls_of. simpl. destruct (dev_read_bytes D n s) as [[d s']|]; [|reflexivity].
  destruct (run D (f d) s') as [[o t] s'']. reflexivity.
Qed.

Lemma calls_int_ (D : Instrument) {A : Type} (r : string) (f : Z -> prog A)
  (s : dev_state D) :
  calls_of (run D (bind (int_ r) f) s)
  = match py_int r with
    | Some z => calls_of (run D (f z) s)
    | None => []
    end.
Proof. unfold int_. destruct (py_int r); reflexivity. Qed.

Lemma calls_float_ (D : Instrument) {A : Type} (r : string) (f : float -> prog A)
  (s : dev_state D) :
  calls_of (run D (bind (float_ r) f) s)
  = match py_float r with
    | Some x => calls_of (run D (f x) s)
    | None => []
    end.
Proof. unfold float_. destruct (py_float r); reflexivity. Qed.

Lemma calls_lift (D : Instrument) {A B : Type} (x : result A) (f : A -> prog B)
  (s : dev_state D) :
  calls_of (run D (bind (lift x) f) s)
  = match x with
    | inr a => calls_of (run D (f a) s)
    | inl _ => []
    end.
Proof. destruct x; reflexivity. Qed.

Lemma prefix_nil {A : Type} (full : list A) : prefix [] full.
Proof. exists full. reflexivity. Qed.

Lemma prefix_cons {A : Type} (a : A) (l full : list A) :
  prefix l full -> prefix (a :: l) (a :: full).
Proof. intros [rest ->]. exists rest. reflexivity. Qed.

Lemma prefix_refl {A : Type} (l : list A) : prefix l l.
Proof. exists []. symmetry. apply app_nil_r. Qed.

Lemma prefix_app_r {A : Type} (l full more : list A) :
  prefix l full -> prefix l (full ++ more).
Proof. intros [rest ->]. exists (rest ++ more)%list. symmetry. apply app_assoc. Qed.

Create HintDb prefix.
#[local] Hint Resolve prefix_nil prefix_cons prefix_refl : prefix.

Lemma run_query_eq (D : Instrument) {A : Type} (cmd : string) (f : string -> prog A)
  (s : dev_state D) :
  run D (bind (query cmd) f) s
  = match dev_query D cmd s with
    | Some (r, s') => let '(o, t, s'') := run D (f r) s' in (o, OpQuery cmd :: t, s'')
    | None => (Raised VisaIOError, [OpQuery cmd], s)
    end.
Proof. reflexivity. Qed.

Lemma run_int_eq (D : Instrument) {A : Type} (r : string) (f : Z -> prog A)
  (s : dev_state D) :
  run D (bind (int_ r) f) s
  = match py_int r with
    | Some z => run D (f z) s
    | None => (Raised int_literal_error, [], s)
    end.
Proof. unfold int_. destruct (py_int r); reflexivity. Qed.


(** The ways the choice of the format can end. *)
Lemma run_format_cases (D : Instrument) (s : dev_state D) :
  (exists s1, run D conversion_format_bytes_per_sample s
              = (Returned ("i", 4), [OpQuery "MFORMAT?"], s1)) \/
  (exists s2, run D conversion_format_bytes_per_sample s
              = (Returned ("h", 2), [OpQuery "MFORMAT?"; OpQuery "MFORMAT?"], s2)) \/
  (exists e t s', run D conversion_format_bytes_per_sample s = (Raised e, t, s') /\
                  prefix t [OpQuery "MFORMAT?"; OpQuery "MFORMAT?"] /\ t <> []).
Proof.
  assert (Hbad : forall (e : exn) (t : list op) (s' : dev_state D),
    prefix t [OpQuery "MFORMAT?"; OpQuery "MFORMAT?"] -> t <> [] ->
    exists e0 t0 s0, (@Raised (string * Z) e, t, s') = (Raised e0, t0, s0) /\
                     prefix t0 [OpQuery "MFORMAT?"; OpQuery "MFORMAT?"] /\ t0 <> []).
  { intros e t s' Hp Hn. exists e, t, s'. auto. }
  unfold conversion_format_bytes_per_sample. rewrite run_query_eq.
  destruct (dev_query D "MFORMAT?" s) as [[r1 s1]|];
    [|right; right; apply Hbad; [auto with prefix | discriminate]].
  rewrite run_int_eq.
  destruct (py_int r1) as [c1|];
    [|right; right; apply Hbad; [auto with prefix | discriminate]].
  destruct (c1 =? 3); [left; eexists; reflexivity|].
  rewrite run_query_eq.
  destruct (dev_query D "MFORMAT?" s1) as [[r2 s2]|];
    [|right; right; apply Hbad; [auto with prefix | discriminate]].
  rewrite run_int_eq.
  destruct (py_int r2) as [c2|];
    [|right; right; apply Hbad; [auto with prefix | discriminate]].
  destruct (c2 =? 2); [right; left; eexists; reflexivity|].
  right; right; apply Hbad; [auto with prefix | discriminate].
Qed.

Lemma read_binary_mem_after_format (N_SAMPLES : Z) :
  read_binary_mem N_SAMPLES
  = bind conversion_format_bytes_per_sample
      (fun fmt => let '(conversion_format, bytes_per_sample) := fmt in
                  after_format N_SAMPLES conversion_format bytes_per_sample).
Proof. reflexivity. Qed.

Lemma calls_after_format
  (D : Instrument) (s1 : dev_state D) (N_SAMPLES : Z) (cf : string) (w : Z) :
  prefix
    (calls_of (run D (after_format N_SAMPLES cf w) s1))
    [OpWrite ("RMEM 1," ++ str_int N_SAMPLES); OpRead (w * N_SAMPLES);
     OpQuery "ISCALE?"].
Proof.
  unfold after_format. rewrite calls_write.
  destruct (dev_write D _ s1) as [s2|]; [|auto with prefix].
  rewrite calls_read_bytes.
  destruct (dev_read_bytes D _ s2) as [[data s3]|]; [|auto with prefix].
  rewrite calls_lift.
  destruct (Struct.unpack _ data) as [e|samples]; [auto with prefix|].
  rewrite calls_query.
  destruct (dev_query D "ISCALE?" s3) as [[r s4]|]; [|auto with prefix].
  rewrite calls_float_. destruct (py_float r); auto with prefix.
Qed.

Lemma calls_run_bind (D : Instrument) {A B : Type} (p : prog A) (f : A -> prog B)
  (s : dev_state D) :
  calls_of (run D (bind p f) s)
  = match run D p s with
    | (Returned a, t, s') => (t ++ calls_of (run D (f a) s'))%list
    | (Raised _, t, _) => t
    end.
Proof.
  rewrite run_bind. destruct (run D p s) as [[[a|e] t] s']; [|reflexivity].
  unfold calls_of. destruct (run D (f a) s') as [[o t'] s'']. reflexivity.
Qed.

(** X1. On every device, whatever it answers and wherever it fails,
    [read_binary_mem] follows one of two scripts and stops somewhere
    along it: the format query, [RMEM], a read of [4 * N_SAMPLES] bytes,
    [ISCALE?]; or the format query twice, [RMEM], a read of
    [2 * N_SAMPLES] bytes, [ISCALE?]. *)
Theorem read_binary_mem_protocol
  (D : Instrument) (s : dev_state D) (N_SAMPLES : Z) :
  let calls := calls_of (run D (read_binary_mem N_SAMPLES) s) in
  prefix calls [OpQuery "MFORMAT?"; OpWrite ("RMEM 1," ++ str_int N_SAMPLES);
                OpRead (4 * N_SAMPLES); OpQuery "ISCALE?"] \/
  prefix calls [OpQuery "MFORMAT?"; OpQuery "MFORMAT?";
                OpWrite ("RMEM 1," ++ str_int N_SAMPLES);
                OpRead (2 * N_SAMPLES); OpQuery "ISCALE?"].
Proof.
  intros calls. subst calls. rewrite read_binary_mem_after_format, calls_run_bind.
  destruct (run_format_cases D s) as [[s1 ->]|[[s2 ->]|(e & t & s' & -> & Hpre & _)]].
  - left. apply prefix_cons. apply (calls_after_format D s1 N_SAMPLES "i" 4).
  - right. do 2 apply prefix_cons. apply (calls_after_format D s2 N_SAMPLES "h" 2).
  - right.
    apply (prefix_app_r t [OpQuery "MFORMAT?"; OpQuery "MFORMAT?"]
             [OpWrite ("RMEM 1," ++ str_int N_SAMPLES); OpRead (2 * N_SAMPLES);
              OpQuery "ISCALE?"] Hpre).
Qed.

(** ** Decoding any buffer *)

Section Decoding.

Lemma length_unpack_items (c : ascii) (w n : nat) (data : list byte) :
  Struct.code_size c = Some w ->
  List.length (Struct.unpack_items (repeat c n) data) = n.
Proof.
  intros Hc. revert data. induction n as [|n IH]; intros data; [reflexivity|].
  cbn [repeat Struct.unpack_items]. rewrite Hc. cbn [List.length]. rewrite IH. reflexivity.
Qed.

(** What a successful [struct.unpack] of [N] codes [c] tells. *)
Lemma unpack_inr (c : ascii) (w : nat) (N : Z) (data : list byte) (zs : list Z) :
  Struct.code_size c = Some w ->
  Struct.unpack (">" ++ str_mul (String c "") N) data = inr zs ->
  zs = Struct.unpack_items (repeat c (Z.to_nat N)) data /\
  List.length data = (w * Z.to_nat N)%nat.
Proof.
  intros Hc. unfold Struct.unpack, str_mul. cbn [append].
  rewrite concat_repeat_single, (calcsize_repeat c w _ Hc).
  destruct (Nat.eqb_spec (List.length data) (w * Z.to_nat N)) as [E|E]; [|discriminate].
  intros H. injection H as <-. split; [reflexivity | exact E].
Qed.

Lemma unpack_inl (c : ascii) (w : nat) (N : Z) (data : list byte) :
  Struct.code_size c = Some w ->
  List.length data <> (w * Z.to_nat N)%nat ->
  Struct.unpack (">" ++ str_mul (String c "") N) data
  = inl (StructError "unpack requires a buffer of the size of the format").
Proof.
  intros Hc Hlen. unfold Struct.unpack, str_mul. cbn [append].
  rewrite concat_repeat_single, (calcsize_repeat c w _ Hc).
  destruct (Nat.eqb_spec (List.length data) (w * Z.to_nat N)) as [E|E];
    [contradiction | reflexivity].
Qed.

Lemma be_unsigned_bound (bs : list byte) :
  0 <= Struct.be_unsigned bs < 256 ^ Z.of_nat (List.length bs).
Proof.
  induction bs as [|b bs IH] using rev_ind.
  - change (0 <= 0 < 1). lia.
  - rewrite be_unsigned_snoc, length_app. cbn [List.length].
    rewrite Nat.add_1_r, Nat2Z.inj_succ, Z.pow_succ_r by lia.
    pose proof (Byte.to_N_bounded b). lia.
Qed.

Lemma be_signed_fits (bs : list byte) :
  bs <> [] -> fits (List.length bs) (Struct.be_signed bs).
Proof.
  intros Hne. unfold fits, Struct.be_signed.
  pose proof (be_unsigned_bound bs) as Hb.
  assert (Hw : 0 < Z.of_nat (List.length bs)) by (destruct bs; [congruence | simpl; lia]).
  replace (256 ^ Z.of_nat (List.length bs)) with (2 ^ (8 * Z.of_nat (List.length bs))) in Hb
    by (rewrite Z.pow_mul_r by lia; reflexivity).
  set (k := 8 * Z.of_nat (List.length bs)) in *.
  assert (Hk : 2 ^ k = 2 * 2 ^ (k - 1)).
  { rewrite <- Z.pow_succ_r by lia. f_equal. lia. }
  destruct (Z.ltb_spec (Struct.be_unsigned bs) (2 ^ (k - 1))); lia.
Qed.

Lemma byte_of_Z_to_N (b : byte) : byte_of_Z (Z.of_N (Byte.to_N b)) = b.
Proof.
  unfold byte_of_Z. pose proof (Byte.to_N_bounded b).
  rewrite Z.mod_small by lia. rewrite N2Z.id, Byte.of_to_N. reflexivity.
Qed.

Lemma be_bytes_congr (w : nat) (z z' : Z) :
  z mod 256 ^ Z.of_nat w = z' mod 256 ^ Z.of_nat w -> be_bytes w z = be_bytes w z'.
Proof.
  revert z z'. induction w as [|w IH]; intros z z' H; [reflexivity|].
  rewrite Nat2Z.inj_succ, Z.pow_succ_r in H by lia.
  assert (Hp : 0 < 256 ^ Z.of_nat w) by (apply Z.pow_pos_nonneg; lia).
  rewrite (Z.rem_mul_r z 256), (Z.rem_mul_r z' 256) in H by lia.
  pose proof (Z.mod_pos_bound z 256 ltac:(lia)) as Hz.
  pose proof (Z.mod_pos_bound z' 256 ltac:(lia)) as Hz'.
  assert (Hlow : z mod 256 = z' mod 256) by lia.
  cbn [be_bytes]. f_equal.
  - apply IH. lia.
  - f_equal. unfold byte_of_Z. rewrite Hlow. reflexivity.
Qed.

Lemma be_bytes_be_unsigned (bs : list byte) :
  be_bytes (List.length bs) (Struct.be_unsigned bs) = bs.
Proof.
  induction bs as [|b bs IH] using rev_ind; [reflexivity|].
  rewrite be_unsigned_snoc, length_app. cbn [List.length]. rewrite Nat.add_1_r.
  cbn [be_bytes]. pose proof (Byte.to_N_bounded b).
  rewrite Z.div_add_l by lia. rewrite Z.div_small, Z.add_0_r by lia. rewrite IH.
  f_equal. f_equal. rewrite <- (byte_of_Z_to_N b) at 2.
  unfold byte_of_Z. rewrite Z.add_comm, Z.mod_add by lia. reflexivity.
Qed.

(** Writing back the integer read from some bytes gives the bytes. *)
Lemma be_bytes_be_signed (bs : list byte) :
  be_bytes (List.length bs) (Struct.be_signed bs) = bs.
Proof.
  transitivity (be_bytes (List.length bs) (Struct.be_unsigned bs));
    [|apply be_bytes_be_unsigned].
  apply be_bytes_congr. unfold Struct.be_signed.
  destruct (Struct.be_unsigned bs <? 2 ^ (8 * Z.of_nat (List.length bs) - 1)); [reflexivity|].
  replace (2 ^ (8 * Z.of_nat (List.length bs))) with (256 ^ Z.of_nat (List.length bs))
    by (rewrite Z.pow_mul_r by lia; reflexivity).
  replace (Struct.be_unsigned bs - 256 ^ Z.of_nat (List.length bs))
    with (Struct.be_unsigned bs + (-1) * 256 ^ Z.of_nat (List.length bs)) by lia.
  apply Z.mod_add. apply Z.pow_nonzero; lia.
Qed.

(** Every buffer of the right size is the packing of what is unpacked
    from it, and each integer unpacked fits the width. *)
Lemma pack_unpack_items (c : ascii) (w n : nat) (data : list byte) :
  Struct.code_size c = Some w -> (0 < w)%nat ->
  List.length data = (w * n)%nat ->
  pack w (Struct.unpack_items (repeat c n) data) = data /\
  Forall (fits w) (Struct.unpack_items (repeat c n) data).
Proof.
  intros Hc Hw. revert data. induction n as [|n IH]; intros data Hlen.
  - rewrite Nat.mul_0_r in Hlen. apply length_zero_iff_nil in Hlen. subst data.
    split; [reflexivity | constructor].
  - cbn [repeat Struct.unpack_items]. rewrite Hc.
    assert (Hf : List.length (firstn w data) = w) by (apply firstn_length_le; lia).
    assert (Hs : List.length (skipn w data) = (w * n)%nat) by (rewrite length_skipn; lia).
    destruct (IH (skipn w data) Hs) as [IHp IHf].
    split.
    + unfold pack. cbn [map List.concat]. fold (pack w (Struct.unpack_items (repeat c n) (skipn w data))).
      rewrite IHp. rewrite <- Hf at 1. rewrite be_bytes_be_signed. apply firstn_skipn.
    + constructor; [|exact IHf].
      rewrite <- Hf at 1. apply be_signed_fits. intros E. rewrite E in Hf. simpl in Hf. lia.
Qed.

End Decoding.

(** ** How a function ends, on any device *)

Lemma result_query (D : Instrument) {A : Type} (cmd : string) (f : string -> prog A)
  (s : dev_state D) :
  result_of (run D (bind (query cmd) f) s)
  = match dev_query D cmd s with
    | Some (r, s') => result_of (run D (f r) s')
    | None => Raised VisaIOError
    end.
Proof.
  unfold result_of. simpl. destruct (dev_query D cmd s) as [[r s']|]; [|reflexivity].
  destruct (run D (f r) s') as [[o t] s'']. reflexivity.
Qed.

Lemma result_write (D : Instrument) {A : Type} (cmd : string) (f : unit -> prog A)
  (s : dev_state D) :
  result_of (run D (bind (write cmd) f) s)
  = match dev_write D cmd s with
    | Some s' => result_of (run D (f tt) s')
    | None => Raised VisaIOError
    end.
Proof.
  unfold result_of. simpl. destruct (dev_write D cmd s) as [s'|]; [|reflexivity].
  destruct (run D (f tt) s') as [[o t] s'']. reflexivity.
Qed.

Lemma result_read_bytes (D : Instrument) {A : Type} (n : Z) (f : list byte -> prog A)
  (s : dev_state D) :
  result_of (run D (bind (read_bytes n) f) s)
  = match dev_read_bytes D n s with
    | Some (d, s') => result_of (run D (f d) s')
    | None => Raised VisaIOError
    end.
Proof.
  unfold result_of. simpl. destruct (dev_read_bytes D n s) as [[d s']|]; [|reflexivity].
  destruct (run D (f d) s') as [[o t] s'']. reflexivity.
Qed.

Lemma result_int_ (D : Instrument) {A : Type} (r : string) (f : Z -> prog A)
  (s : dev_state D) :
  result_of (run D (bind (int_ r) f) s)
  = match py_int r with
    | Some z => result_of (run D (f z) s)
    | None => Raised int_literal_error
    end.
Proof. unfold int_. destruct (py_int r); reflexivity. Qed.

Lemma result_float_ (D : Instrument) {A : Type} (r : string) (f : float -> prog A)
  (s : dev_state D) :
  result_of (run D (bind (float_ r) f) s)
  = match py_float r with
    | Some x => result_of (run D (f x) s)
    | None => Raised float_literal_error
    end.
Proof. unfold float_. destruct (py_float r); reflexivity. Qed.

Lemma result_lift (D : Instrument) {A B : Type} (x : result A) (f : A -> prog B)
  (s : dev_state D) :
  result_of (run D (bind (lift x) f) s)
  = match x with
    | inr a => result_of (run D (f a) s)
    | inl e => Raised e
    end.
Proof. destruct x; reflexivity. Qed.

Lemma result_run_bind (D : Instrument) {A B : Type} (p : prog A) (f : A -> prog B)
  (s : dev_state D) :
  result_of (run D (bind p f) s)
  = match run D p s with
    | (Returned a, _, s') => result_of (run D (f a) s')
    | (Raised e, _, _) => Raised e
    end.
Proof.
  rewrite run_bind. destruct (run D p s) as [[[a|e] t] s']; [|reflexivity].
  unfold result_of. destruct (run D (f a) s') as [[o t'] s'']. reflexivity.
Qed.

(** ** Reading the memory, on any device *)

Lemma after_format_length
  (D : Instrument) (s1 : dev_state D) (N_SAMPLES : Z) (c : ascii) (w : nat) (bps : Z)
  (l : list float) :
  Struct.code_size c = Some w ->
  result_of (run D (after_format N_SAMPLES (String c "") bps) s1) = Returned l ->
  List.length l = Z.to_nat N_SAMPLES.
Proof.
  intros Hc. unfold after_format. rewrite result_write.
  destruct (dev_write D _ s1) as [s2|]; [|discriminate].
  rewrite result_read_bytes.
  destruct (dev_read_bytes D _ s2) as [[data s3]|]; [|discriminate].
  rewrite result_lift.
  destruct (Struct.unpack _ data) as [e|samples] eqn:Hu; [discriminate|].
  destruct (unpack_inr c w N_SAMPLES data samples Hc Hu) as [-> _].
  rewrite result_query.
  destruct (dev_query D "ISCALE?" s3) as [[r s4]|]; [|discriminate].
  rewrite result_float_. destruct (py_float r) as [ISCALE|]; [|discriminate].
  intros H. injection H as <-.
  rewrite length_rev, length_map. apply (length_unpack_items c w _ data Hc).
Qed.

(** X2. On every device, whatever it answers: when [read_binary_mem]
    returns, it returns exactly [N_SAMPLES] values (none when
    [N_SAMPLES] is negative). *)
Theorem read_binary_mem_length
  (D : Instrument) (s : dev_state D) (N_SAMPLES : Z) (l : list float) :
  result_of (run D (read_binary_mem N_SAMPLES) s) = Returned l ->
  List.length l = Z.to_nat N_SAMPLES.
Proof.
  rewrite read_binary_mem_after_format, result_run_bind.
  destruct (run_format_cases D s) as [[s1 ->]|[[s2 ->]|(e & t & s' & -> & _)]].
  - apply (after_format_length D s1 N_SAMPLES "i" 4 4). reflexivity.
  - apply (after_format_length D s2 N_SAMPLES "h" 2 2). reflexivity.
  - discriminate.
Qed.

Lemma read_binary_mem_length_witness :
  result_of (run (synthetic [("MFORMAT?", "3"); ("ISCALE?", "0.5")]
                            [x00; x01; xff; xfe; x80; x00; x00; x00])
                 (read_binary_mem 2) tt)
  = Returned [(-1073741824)%float; 65535%float] /\
  List.length [(-1073741824)%float; 65535%float] = Z.to_nat 2.
Proof.
  split; [vm_compute; reflexivity|].
  apply (read_binary_mem_length
           (synthetic [("MFORMAT?", "3"); ("ISCALE?", "0.5")]
                      [x00; x01; xff; xfe; x80; x00; x00; x00]) tt 2).
  vm_compute. reflexivity.
Defined.

Lemma run_format_reported
  (D : Instrument) (s0 s1 : dev_state D) (code : Z) (w : nat) :
  (code = 2 /\ w = 2%nat) \/ (code = 3 /\ w = 4%nat) ->
  reports_format D s0 code s1 ->
  exists c : ascii,
    Struct.code_size c = Some w /\
    run D conversion_format_bytes_per_sample s0
    = (Returned (String c "", Z.of_nat w),
       if code =? 3 then [OpQuery "MFORMAT?"]
       else [OpQuery "MFORMAT?"; OpQuery "MFORMAT?"], s1).
Proof.
  intros [[-> ->]|[-> ->]] Hrep.
  - exists "h"%char. split; [reflexivity|].
    rewrite (run_memory_format_not_3 D s0 s1 2 Hrep) by lia. reflexivity.
  - exists "i"%char. split; [reflexivity|].
    rewrite (run_memory_format_3 D s0 s1 Hrep). reflexivity.
Qed.

(** X3. When the device delivers a buffer that has not
    [bytes_per_sample * n] bytes, [read_binary_mem] raises the
    [struct.error] of [struct.unpack]; the memory has been read by then,
    and [ISCALE?] is never asked. *)
Theorem read_binary_mem_wrong_size
  (D : Instrument) (s0 s1 s2 s3 : dev_state D)
  (n : nat) (code : Z) (w : nat) (data : list byte) :
  (code = 2 /\ w = 2%nat) \/ (code = 3 /\ w = 4%nat) ->
  reports_format D s0 code s1 ->
  dev_write D ("RMEM 1," ++ str_int (Z.of_nat n)) s1 = Some s2 ->
  dev_read_bytes D (Z.of_nat w * Z.of_nat n) s2 = Some (data, s3) ->
  List.length data <> (w * n)%nat ->
  run D (read_binary_mem (Z.of_nat n)) s0
  = (Raised (StructError "unpack requires a buffer of the size of the format"),
     calls_to_read code (Z.of_nat n), s3).
Proof.
  intros Hcode Hrep Hw Hrd Hlen.
  destruct (run_format_reported D s0 s1 code w Hcode Hrep) as (c & Hc & Hfmt).
  rewrite read_binary_mem_after_format, run_bind, Hfmt. cbv iota beta.
  unfold after_format. step Hw. step Hrd.
  rewrite (unpack_inl c w (Z.of_nat n) data Hc) by (rewrite Nat2Z.id; exact Hlen).
  unfold calls_to_read.
  destruct Hcode as [[-> ->]|[-> ->]]; reflexivity.
Qed.

Lemma read_binary_mem_wrong_size_witness :
  run (synthetic [("MFORMAT?", "2"); ("ISCALE?", "0.5")] [x00; x01; xff])
      (read_binary_mem 2) tt
  = (Raised (StructError "unpack requires a buffer of the size of the format"),
     [OpQuery "MFORMAT?"; OpQuery "MFORMAT?"; OpWrite "RMEM 1,2"; OpRead 4], tt).
Proof.
  apply (read_binary_mem_wrong_size
           (synthetic [("MFORMAT?", "2"); ("ISCALE?", "0.5")] [x00; x01; xff])
           tt tt tt tt 2 2 2 [x00; x01; xff]).
  - left. split; reflexivity.
  - exists "2", tt. repeat split. exists "2". split; reflexivity.
  - reflexivity.
  - reflexivity.
  - discriminate.
Defined.

(** X4. Whatever bytes the device delivers, when there are
    [bytes_per_sample * n] of them [read_binary_mem] returns: the values
    are [n] integers times [ISCALE], last first; each integer fits the
    width, and packing them gives the buffer back, so that no two buffers
    are read as the same integers. *)
Theorem read_binary_mem_decodes
  (D : Instrument) (s0 s1 s2 s3 s4 : dev_state D)
  (n : nat) (code : Z) (w : nat) (data : list byte) (r : string) (ISCALE : float) :
  (code = 2 /\ w = 2%nat) \/ (code = 3 /\ w = 4%nat) ->
  reports_format D s0 code s1 ->
  dev_write D ("RMEM 1," ++ str_int (Z.of_nat n)) s1 = Some s2 ->
  dev_read_bytes D (Z.of_nat w * Z.of_nat n) s2 = Some (data, s3) ->
  List.length data = (w * n)%nat ->
  dev_query D "ISCALE?" s3 = Some (r, s4) ->
  py_float r = Some ISCALE ->
  exists zs : list Z,
    result_of (run D (read_binary_mem (Z.of_nat n)) s0)
    = Returned (rev (map (fun z => (float_of_int z * ISCALE)%float) zs)) /\
    List.length zs = n /\
    Forall (fits w) zs /\
    pack w zs = data.
Proof.
  intros Hcode Hrep Hw Hrd Hlen Hq Hf.
  destruct (run_format_reported D s0 s1 code w Hcode Hrep) as (c & Hc & Hfmt).
  assert (Hpos : (0 < w)%nat) by (destruct Hcode as [[_ ->]|[_ ->]]; lia).
  destruct (pack_unpack_items c w n data Hc Hpos Hlen) as [Hpack Hfits].
  exists (Struct.unpack_items (repeat c n) data).
  split; [|split; [apply (length_unpack_items c w n data Hc) | split; assumption]].
  rewrite read_binary_mem_after_format, result_run_bind, Hfmt.
  unfold after_format. rewrite result_write, Hw, result_read_bytes, Hrd, result_lift.
  assert (Hu : Struct.unpack (">" ++ str_mul (String c "") (Z.of_nat n)) data
               = inr (Struct.unpack_items (repeat c n) data)).
  { unfold Struct.unpack, str_mul. cbn [append].
    rewrite concat_repeat_single, (calcsize_repeat c w _ Hc), Nat2Z.id, Hlen, Nat.eqb_refl.
    reflexivity. }
  rewrite Hu, result_query, Hq, result_float_, Hf. reflexivity.
Qed.

Lemma read_binary_mem_decodes_witness :
  exists zs : list Z,
    result_of (run (synthetic [("MFORMAT?", "2"); ("ISCALE?", "0.5")]
                              [x00; x01; xff; xfe; x80; x00])
                   (read_binary_mem 3) tt)
    = Returned (rev (map (fun z => (float_of_int z * 0.5)%float) zs)) /\
    List.length zs = 3%nat /\
    Forall (fits 2) zs /\
    pack 2 zs = [x00; x01; xff; xfe; x80; x00].
Proof.
  apply (read_binary_mem_decodes
           (synthetic [("MFORMAT?", "2"); ("ISCALE?", "0.5")]
                      [x00; x01; xff; xfe; x80; x00])
           tt tt tt tt tt 3 2 2 [x00; x01; xff; xfe; x80; x00] "0.5" 0.5).
  - left. split; reflexivity.
  - exists "2", tt. repeat split. exists "2". split; reflexivity.
  - reflexivity.
  - reflexivity.
  - reflexivity.
  - reflexivity.
  - vm_compute. reflexivity.
Defined.

(** ** The uncertainty estimator, on any device *)

Lemma Forall_prefix {A : Type} (P : A -> Prop) (l full : list A) :
  prefix l full -> Forall P full -> Forall P l.
Proof. intros [rest ->] H. apply Forall_app in H. apply H. Qed.

Lemma calls_get_uncertainty_DCV_sampling (D : Instrument) (s : dev_state D) :
  prefix (calls_of (run D get_uncertainty_DCV_sampling s))
         [OpQuery "APER?"; OpQuery "RANGE?"].
Proof.
  unfold get_uncertainty_DCV_sampling. rewrite calls_query.
  destruct (dev_query D "APER?" s) as [[ra s1]|]; [|auto with prefix].
  rewrite calls_float_. destruct (py_float ra) as [T_aper|]; [|auto with prefix].
  destruct (bits_cutoff_3dB T_aper) as [bits cutoff_3dB].
  rewrite calls_query.
  destruct (dev_query D "RANGE?" s1) as [[rr s2]|]; [|auto with prefix].
  rewrite calls_float_. destruct (py_float rr) as [R|]; [|auto with prefix].
  rewrite calls_lift. destruct (truediv _ _) as [e|q]; [auto with prefix|].
  rewrite calls_lift. destruct (add _ _) as [e|c]; auto with prefix.
Qed.

Lemma calls_get_uncertainty_direct_sampling (D : Instrument) (s : dev_state D) :
  prefix (calls_of (run D get_uncertainty_direct_sampling s)) [OpQuery "RANGE?"].
Proof.
  unfold get_uncertainty_direct_sampling. rewrite truediv_percent, bind_lift_inr.
  rewrite calls_query.
  destruct (dev_query D "RANGE?" s) as [[rr s1]|]; [|auto with prefix].
  rewrite calls_float_. destruct (py_float rr) as [R|]; [|auto with prefix].
  rewrite calls_lift. destruct (truediv _ _) as [e|q]; auto with prefix.
Qed.

(** X5. On every device, whatever it answers and wherever it fails,
    [get_uncertainty] only queries: it asks [FUNC?], then [APER?] and
    [RANGE?], or [RANGE?] alone, or nothing more, and it never writes a
    command nor reads bytes. *)
Theorem get_uncertainty_protocol (D : Instrument) (s : dev_state D) :
  let calls := calls_of (run D get_uncertainty s) in
  (prefix calls [OpQuery "FUNC?"; OpQuery "APER?"; OpQuery "RANGE?"] \/
   prefix calls [OpQuery "FUNC?"; OpQuery "RANGE?"]) /\
  Forall (fun o => is_query o = true) calls.
Proof.
  assert (H : prefix (calls_of (run D get_uncertainty s))
                [OpQuery "FUNC?"; OpQuery "APER?"; OpQuery "RANGE?"] \/
              prefix (calls_of (run D get_uncertainty s))
                [OpQuery "FUNC?"; OpQuery "RANGE?"]).
  { unfold get_uncertainty. rewrite calls_query.
    destruct (dev_query D "FUNC?" s) as [[rf s1]|]; [|left; auto with prefix].
    rewrite calls_int_.
    destruct (py_int _) as [mode|]; [|left; auto with prefix].
    destruct (mode =? 1).
    { left. apply prefix_cons. apply calls_get_uncertainty_DCV_sampling. }
    destruct (mode =? 12).
    { right. apply prefix_cons. apply calls_get_uncertainty_direct_sampling. }
    destruct (mode =? 14); left; auto with prefix. }
  intros calls. subst calls. split; [exact H|].
  destruct H as [H|H]; apply (Forall_prefix _ _ _ H); repeat constructor.
Qed.

Lemma result_get_uncertainty_DCV_sampling
  (D : Instrument) (s : dev_state D) (u : list pynum) :
  result_of (run D get_uncertainty_DCV_sampling s) = Returned u ->
  exists b : float, u = [PyFloat 14e-6; PyFloat b].
Proof.
  unfold get_uncertainty_DCV_sampling. rewrite result_query.
  destruct (dev_query D "APER?" s) as [[ra s1]|]; [|discriminate].
  rewrite result_float_. destruct (py_float ra) as [T_aper|]; [|discriminate].
  pose proof (fun R => truediv_range_bits R T_aper) as Hdiv.
  destruct (bits_cutoff_3dB T_aper) as [bits cutoff_3dB]. simpl fst in Hdiv.
  rewrite result_query.
  destruct (dev_query D "RANGE?" s1) as [[rr s2]|]; [|discriminate].
  rewrite result_float_. destruct (py_float rr) as [R|]; [|discriminate].
  rewrite Hdiv, bind_lift_inr. intros H. injection H as <-. eexists. reflexivity.
Qed.

Lemma result_get_uncertainty_direct_sampling
  (D : Instrument) (s : dev_state D) (u : list pynum) :
  result_of (run D get_uncertainty_direct_sampling s) = Returned u ->
  exists b : float, u = [PyFloat 0.0002; PyFloat b].
Proof.
  unfold get_uncertainty_direct_sampling. rewrite truediv_percent, bind_lift_inr.
  rewrite result_query.
  destruct (dev_query D "RANGE?" s) as [[rr s1]|]; [|discriminate].
  rewrite result_float_. destruct (py_float rr) as [R|]; [|discriminate].
  rewrite truediv_range_2_16, bind_lift_inr. intros H. injection H as <-.
  eexists. reflexivity.
Qed.

(** X6. On every device: when [get_uncertainty] returns, it returns a
    list of exactly two numbers, and the first, the part in proportion
    to the reading, is one of the three constants 14e-6, 0.0002 and 1,
    whatever the device answered about aperture and range. *)
Theorem get_uncertainty_shape
  (D : Instrument) (s : dev_state D) (u : list pynum) :
  result_of (run D get_uncertainty s) = Returned u ->
  exists a b : pynum,
    u = [a; b] /\
    (a = PyFloat 14e-6 \/ a = PyFloat 0.0002 \/ a = PyInt 1).
Proof.
  unfold get_uncertainty. rewrite result_query.
  destruct (dev_query D "FUNC?" s) as [[rf s1]|]; [|discriminate].
  rewrite result_int_. destruct (py_int _) as [mode|]; [|discriminate].
  destruct (mode =? 1).
  { intros H. destruct (result_get_uncertainty_DCV_sampling D s1 u H) as [b ->].
    eexists _, _. split; [reflexivity | auto]. }
  destruct (mode =? 12).
  { intros H. destruct (result_get_uncertainty_direct_sampling D s1 u H) as [b ->].
    eexists _, _. split; [reflexivity | auto]. }
  destruct (mode =? 14); [|discriminate].
  intros H. injection H as <-. eexists _, _. split; [reflexivity | auto].
Qed.

Lemma get_uncertainty_shape_witness :
  result_of (run (synthetic [("FUNC?", "1, 10"); ("APER?", "nan"); ("RANGE?", "inf")] [])
                 get_uncertainty tt)
  = Returned [PyFloat 14e-6; PyFloat infinity] /\
  exists a b : pynum,
    [PyFloat 14e-6; PyFloat infinity] = [a; b] /\
    (a = PyFloat 14e-6 \/ a = PyFloat 0.0002 \/ a = PyInt 1).
Proof.
  split; [vm_compute; reflexivity|].
  apply (get_uncertainty_shape
           (synthetic [("FUNC?", "1, 10"); ("APER?", "nan"); ("RANGE?", "inf")] []) tt).
  vm_compute. reflexivity.
Defined.

(** ** The function mode in the answer to [FUNC?] *)

Lemma list_ascii_of_string_append (a b : string) :
  list_ascii_of_string (a ++ b) = (list_ascii_of_string a ++ list_ascii_of_string b)%list.
Proof. induction a as [|c a IH]; simpl; [reflexivity | rewrite IH; reflexivity]. Qed.

Lemma find_from_absent (c : ascii) (l : list ascii) (i : Z) :
  ~ In c l -> find_from c l i = -1.
Proof.
  revert i. induction l as [|x l IH]; intros i Hn; simpl; [reflexivity|].
  destruct (Ascii.eqb_spec x c) as [->|_].
  - exfalso. apply Hn. left. reflexivity.
  - apply IH. intros H. apply Hn. right. exact H.
Qed.

Lemma find_from_first (c : ascii) (l1 l2 : list ascii) (i : Z) :
  ~ In c l1 -> find_from c (l1 ++ c :: l2) i = i + Z.of_nat (List.length l1).
Proof.
  revert i. induction l1 as [|x l1 IH]; intros i Hn; simpl find_from.
  - rewrite Ascii.eqb_refl. simpl. lia.
  - destruct (Ascii.eqb_spec x c) as [->|_].
    + exfalso. apply Hn. left. reflexivity.
    + rewrite IH by (intros H; apply Hn; right; exact H).
      cbn [List.length]. lia.
Qed.

(** X7. [get_uncertainty] reads the mode as the integer written before
    the first comma of the answer, whatever follows the comma; when the
    answer has no comma, it reads the answer without its last character,
    so that [12] alone is read as mode 1. *)
Theorem mode_of_first_comma :
  (forall head tail : string,
     no_comma head -> mode_of (head ++ "," ++ tail) = py_int head) /\
  (forall r : string,
     no_comma r -> mode_of r = py_int (drop_last r)).
Proof.
  split.
  - intros head tail Hn. unfold mode_of, find, slice_to. f_equal.
    rewrite list_ascii_of_string_append. cbn [append list_ascii_of_string].
    rewrite (find_from_first _ _ _ 0 Hn).
    destruct (Z.ltb_spec (0 + Z.of_nat (List.length (list_ascii_of_string head))) 0); [lia|].
    rewrite Z.add_0_l, Nat2Z.id, firstn_app, Nat.sub_diag, firstn_all.
    cbn [firstn]. rewrite app_nil_r. apply string_of_list_ascii_of_string.
  - intros r Hn. unfold mode_of, find, slice_to, drop_last. f_equal. f_equal.
    rewrite (find_from_absent _ _ 0 Hn). change (-1 <? 0) with true. cbv iota.
    rewrite removelast_firstn_len. f_equal. lia.
Qed.

Lemma mode_of_first_comma_witness :
  mode_of ("1" ++ "," ++ " 10.0") = py_int "1" /\ mode_of "12" = py_int (drop_last "12").
Proof.
  split.
  - apply (proj1 mode_of_first_comma "1" " 10.0"). intros [H|[]]. discriminate H.
  - apply (proj2 mode_of_first_comma "12"). intros [H|[H|[]]]; discriminate H.
Defined.

(** ** The aperture table grows with the aperture *)

Lemma SFcompare_le_lt_trans (x y z : spec_float) :
  SFleb x y = true -> SFcompare y z = Some Lt -> SFcompare x z = Some Lt.
Proof.
  intros Hxy Hyz. unfold SFleb in Hxy.
  destruct (SFcompare x y) as [[| |]|] eqn:E; try discriminate.
  - clear Hxy.
    destruct x as [sx|sx| |sx mx ex], y as [sy|sy| |sy my ey], z as [sz|sz| |sz mz ez];
      simpl in *; try discriminate; try congruence;
      repeat match goal with s : bool |- _ => destruct s end;
      simpl in *; try discriminate; try congruence.
    all: change (Pos.compare_cont Eq mx my) with (Pos.compare mx my) in E;
         change (Pos.compare_cont Eq my mz) with (Pos.compare my mz) in Hyz;
         change (Pos.compare_cont Eq mx mz) with (Pos.compare mx mz).
    all: destruct (Z.compare_spec ex ey), (Z.compare_spec ey ez), (Z.compare_spec ex ez);
         try discriminate; try congruence; try lia;
         destruct (Pos.compare_spec mx my), (Pos.compare_spec my mz), (Pos.compare_spec mx mz);
         simpl in *; try discriminate; try congruence; try lia.
  - eapply SFcompare_lt_trans; eassumption.
Qed.

Lemma leb_ltb_trans (x y c : float) :
  (x <=? y)%float = true -> (y <? c)%float = true -> (x <? c)%float = true.
Proof.
  rewrite leb_spec, !ltb_spec. unfold SFltb. intros Hxy Hyc.
  destruct (SFcompare (Prim2SF y) (Prim2SF c)) as [[| |]|] eqn:E; try discriminate.
  rewrite (SFcompare_le_lt_trans _ _ _ Hxy E). reflexivity.
Qed.

(** X8. The table never gives fewer bits for a longer aperture: when
    [T1 <= T2], the bits for [T1] are at most the bits for [T2]. *)
Theorem bits_monotone (T1 T2 : float) :
  (T1 <=? T2)%float = true ->
  fst (bits_cutoff_3dB T1) <= fst (bits_cutoff_3dB T2).
Proof.
  intros Hle. pose proof (fun c => leb_ltb_trans T1 T2 c Hle) as Htr.
  unfold bits_cutoff_3dB.
  destruct (T2 <? 1e-6)%float eqn:E1; [rewrite (Htr _ E1); simpl; lia|].
  destruct (T2 <? 3e-6)%float eqn:E2;
    [rewrite (Htr _ E2); destruct (T1 <? 1e-6)%float; simpl; lia|].
  destruct (T2 <? 6e-6)%float eqn:E3;
    [rewrite (Htr _ E3); destruct (T1 <? 1e-6)%float, (T1 <? 3e-6)%float; simpl; lia|].
  destruct (T2 <? 100e-6)%float eqn:E4;
    [rewrite (Htr _ E4);
     destruct (T1 <? 1e-6)%float, (T1 <? 3e-6)%float, (T1 <? 6e-6)%float; simpl; lia|].
  destruct (T1 <? 1e-6)%float, (T1 <? 3e-6)%float, (T1 <? 6e-6)%float,
    (T1 <? 100e-6)%float; simpl; lia.
Qed.

Lemma bits_monotone_witness :
  (2e-6 <=? 50e-6)%float = true /\
  fst (bits_cutoff_3dB 2e-6) <= fst (bits_cutoff_3dB 50e-6).
Proof.
  split; [vm_compute; reflexivity|].
  apply (bits_monotone 2e-6 50e-6). vm_compute. reflexivity.
Defined.

(** X9. The two-byte format and the table agree: an aperture for which
    [configure_DCV_digitalizing] selects [SINT], that is a number not
    above 1.4e-6, is given at most 16 bits by the table; one for which it
    selects [DINT] is given at least 16. *)
Theorem format_within_bits (T_aper : float) :
  PrimFloat.is_nan T_aper = false ->
  (PyNum.gt (PyFloat T_aper) (PyFloat 1.4e-6) = false ->
   fst (bits_cutoff_3dB T_aper) <= 16) /\
  (PyNum.gt (PyFloat T_aper) (PyFloat 1.4e-6) = true ->
   16 <= fst (bits_cutoff_3dB T_aper)).
Proof.
  intros Hnan. unfold PyNum.gt, PyNum.lt. split.
  - intros Hgt.
    rewrite (ltb_negb_leb 1.4e-6 T_aper) in Hgt by (assumption || reflexivity).
    apply negb_false_iff in Hgt.
    assert (H3 : (T_aper <? 3e-6)%float = true).
    { apply (leb_ltb_trans T_aper 1.4e-6 3e-6 Hgt). vm_compute. reflexivity. }
    unfold bits_cutoff_3dB. rewrite H3.
    destruct (T_aper <? 1e-6)%float; simpl; lia.
  - intros Hgt.
    assert (H1 : (T_aper <? 1e-6)%float = false).
    { apply (leb_above 1e-6 1.4e-6 T_aper); [vm_compute; reflexivity|].
      rewrite leb_spec. rewrite ltb_spec in Hgt. unfold SFleb, SFltb in *.
      destruct (SFcompare (Prim2SF 1.4e-6) (Prim2SF T_aper)) as [[| |]|];
        congruence. }
    unfold bits_cutoff_3dB. rewrite H1.
    destruct (T_aper <? 3e-6)%float, (T_aper <? 6e-6)%float, (T_aper <? 100e-6)%float;
      simpl; lia.
Qed.

Lemma format_within_bits_witness :
  PrimFloat.is_nan 1e-6 = false /\
  (PyNum.gt (PyFloat 1e-6) (PyFloat 1.4e-6) = false ->
   fst (bits_cutoff_3dB 1e-6) <= 16) /\
  (PyNum.gt (PyFloat 1e-6) (PyFloat 1.4e-6) = true ->
   16 <= fst (bits_cutoff_3dB 1e-6)).
Proof.
  split; [vm_compute; reflexivity|].
  apply (format_within_bits 1e-6). vm_compute. reflexivity.
Defined.

(** ** The configuration functions, on any device *)

Lemma run_write_only (D : Instrument) {A : Type} (p : prog A) (s : dev_state D) :
  write_only p = true ->
  Forall (fun o => is_write o = true) (calls_of (run D p s)) /\
  prefix (calls_of (run D p s)) (map OpWrite (written p)) /\
  (forall a : A, result_of (run D p s) = Returned a ->
     ending p = Some (Returned a) /\
     calls_of (run D p s) = map OpWrite (written p)).
Proof.
  revert s. induction p as [a|e|cmd k IH|cmd k IH|n k IH]; intros s Hwo;
    try discriminate.
  - split; [constructor|]. split; [apply prefix_nil|].
    intros a' H. injection H as <-. split; reflexivity.
  - split; [constructor|]. split; [apply prefix_nil|]. intros a' H. discriminate H.
  - simpl in Hwo. cbn [run written ending map].
    destruct (dev_write D cmd s) as [s1|].
    + destruct (IH s1 Hwo) as (Hall & Hpre & Hret).
      unfold calls_of, result_of in *. destruct (run D k s1) as [[o t] s2]. simpl in *.
      split; [constructor; [reflexivity | exact Hall]|].
      split; [apply prefix_cons; exact Hpre|].
      intros a H. destruct (Hret a H) as [He Hc]. split; [exact He | rewrite Hc; reflexivity].
    + unfold calls_of, result_of. simpl.
      split; [repeat constructor|]. split; [apply prefix_cons, prefix_nil|].
      intros a H. discriminate H.
Qed.

Lemma run_write_only_accepting (D : Instrument) {A : Type} (p : prog A) (s : dev_state D) :
  accepts_all D -> write_only p = true ->
  ending p = Some (result_of (run D p s)) /\
  calls_of (run D p s) = map OpWrite (written p).
Proof.
  intros Hacc Hwo. split; [|apply calls_written; assumption].
  revert s. induction p as [a|e|cmd k IH|cmd k IH|n k IH]; intros s;
    try discriminate; try reflexivity.
  simpl in Hwo. cbn [run ending].
  destruct (dev_write D cmd s) as [s1|] eqn:E; [|destruct (Hacc cmd s E)].
  rewrite (IH Hwo s1). unfold result_of. destruct (run D k s1) as [[o t] s2]. reflexivity.
Qed.

Lemma configure_direct_digitalizing_write_only
  (repr_float : float -> string)
  (samples_per_burst effective_sampling_frequency t_aper max_input : pynum) :
  write_only (configure_direct_digitalizing repr_float samples_per_burst
                effective_sampling_frequency t_aper max_input) = true.
Proof.
  unfold configure_direct_digitalizing.
  destruct (truediv (PyInt 1) effective_sampling_frequency); reflexivity.
Qed.

(** X10. The three configuration functions only write: on every device,
    with every argument, each call they issue is a command sent; they
    never query the device and never read from it. *)
Theorem configure_only_write
  (D : Instrument) (s : dev_state D) (repr_float : float -> string)
  (samples_per_burst frequency aperture max_input : pynum) :
  Forall (fun o => is_write o = true)
    (calls_of (run D (configure_sub_sampling repr_float samples_per_burst
                        frequency max_input) s)) /\
  Forall (fun o => is_write o = true)
    (calls_of (run D (configure_direct_digitalizing repr_float samples_per_burst
                        frequency aperture max_input) s)) /\
  Forall (fun o => is_write o = true)
    (calls_of (run D (configure_DCV_digitalizing repr_float samples_per_burst
                        frequency aperture max_input) s)).
Proof.
  split; [|split].
  - apply run_write_only, configure_sub_sampling_write_only.
  - apply run_write_only, configure_direct_digitalizing_write_only.
  - apply run_write_only, configure_DCV_digitalizing_write_only.
Qed.

(** X11. When a configuration function returns, the device has received
    its whole script, in the order of the source, the command that arms
    the trigger last; the period sent is [1/frequency], which was
    defined. *)
Theorem configure_returns
  (D : Instrument) (s : dev_state D) (repr_float : float -> string)
  (samples_per_burst frequency aperture max_input : pynum) :
  (result_of (run D (configure_sub_sampling repr_float samples_per_burst
                       frequency max_input) s) = Returned tt ->
   exists period : pynum,
     truediv (PyInt 1) frequency = inr period /\
     calls_of (run D (configure_sub_sampling repr_float samples_per_burst
                        frequency max_input) s)
     = map OpWrite
         ["PRESET FAST"; "MEM FIFO"; "MFORMAT SINT"; "OFORMAT SINT"; "SSDC 1";
          "SWEEP " ++ str repr_float period ++ "," ++ str repr_float samples_per_burst;
          "SSRC EXT"; "TARM HOLD"]) /\
  (result_of (run D (configure_direct_digitalizing repr_float samples_per_burst
                       frequency aperture max_input) s) = Returned tt ->
   exists period : pynum,
     truediv (PyInt 1) frequency = inr period /\
     calls_of (run D (configure_direct_digitalizing repr_float samples_per_burst
                        frequency aperture max_input) s)
     = map OpWrite
         ["PRESET DIG"; "DSDC " ++ str repr_float (np_abs max_input); "MEM LIFO";
          "MFORMAT SINT"; "OFORMAT SINT"; "TIMER " ++ str repr_float period;
          "NRDGS " ++ str repr_float samples_per_burst ++ ", TIMER";
          "TRIG EXT"; "TARM AUTO"]) /\
  (result_of (run D (configure_DCV_digitalizing repr_float samples_per_burst
                       frequency aperture max_input) s) = Returned tt ->
   exists period : pynum,
     truediv (PyInt 1) frequency = inr period /\
     calls_of (run D (configure_DCV_digitalizing repr_float samples_per_burst
                        frequency aperture max_input) s)
     = map OpWrite
         ["PRESET DIG"; "MEM LIFO";
          "MFORMAT " ++ (if PyNum.gt aperture (PyFloat 1.4e-6) then "DINT" else "SINT");
          "OFORMAT " ++ (if PyNum.gt aperture (PyFloat 1.4e-6) then "DINT" else "SINT");
          "TIMER " ++ str repr_float period; "APER " ++ str repr_float aperture;
          "NRDGS " ++ str repr_float samples_per_burst ++ ", TIMER";
          "TRIG EXT"; "DCV " ++ str repr_float (np_abs max_input); "TARM AUTO"]).
Proof.
  split; [|split]; intros Hret.
  - destruct (run_write_only D _ s
                (configure_sub_sampling_write_only repr_float samples_per_burst
                   frequency max_input)) as (_ & _ & H).
    destruct (H tt Hret) as [Hend ->]. clear H Hret. revert Hend.
    unfold configure_sub_sampling.
    destruct (truediv (PyInt 1) frequency) as [e|period]; [discriminate|].
    intros _. exists period. split; reflexivity.
  - destruct (run_write_only D _ s
                (configure_direct_digitalizing_write_only repr_float samples_per_burst
                   frequency aperture max_input)) as (_ & _ & H).
    destruct (H tt Hret) as [Hend ->]. clear H Hret. revert Hend.
    unfold configure_direct_digitalizing.
    destruct (truediv (PyInt 1) frequency) as [e|period]; [discriminate|].
    intros _. exists period. split; reflexivity.
  - destruct (run_write_only D _ s
                (configure_DCV_digitalizing_write_only repr_float samples_per_burst
                   frequency aperture max_input)) as (_ & _ & H).
    destruct (H tt Hret) as [Hend ->]. clear H Hret. revert Hend.
    unfold configure_DCV_digitalizing.
    destruct (truediv (PyInt 1) frequency) as [e|period]; [discriminate|].
    intros _. exists period. split; reflexivity.
Qed.

Lemma configure_returns_witness :
  exists period : pynum,
    truediv (PyInt 1) (PyInt 100000) = inr period /\
    calls_of (run (synthetic [] [])
                (configure_direct_digitalizing (fun _ => "1e-05") (PyInt 1000)
                   (PyInt 100000) (PyFloat 2e-6) (PyInt (-10))) tt)
    = map OpWrite
        ["PRESET DIG"; "DSDC " ++ str (fun _ => "1e-05") (np_abs (PyInt (-10))); "MEM LIFO";
         "MFORMAT SINT"; "OFORMAT SINT"; "TIMER " ++ str (fun _ => "1e-05") period;
         "NRDGS " ++ str (fun _ => "1e-05") (PyInt 1000) ++ ", TIMER";
         "TRIG EXT"; "TARM AUTO"].
Proof.
  apply (configure_returns (synthetic [] []) tt (fun _ => "1e-05") (PyInt 1000)
           (PyInt 100000) (PyFloat 2e-6) (PyInt (-10))).
  vm_compute. reflexivity.
Defined.

Lemma Some_inj {A : Type} (a b : A) : Some a = Some b -> a = b.
Proof. congruence. Qed.

Lemma truediv_one_zero (a : pynum) :
  py_is_zero a = true ->
  exists msg : string, truediv (PyInt 1) a = inl (ZeroDivisionError msg).
Proof.
  destruct a as [z|f]; simpl py_is_zero; intros H.
  - exists "division by zero". unfold truediv. rewrite H. reflexivity.
  - exists "float division by zero". unfold truediv.
    change (to_float (PyInt 1)) with (@inr exn float 1%float).
    cbn [to_float]. rewrite H. reflexivity.
Qed.

(** X12. A sampling frequency of zero, [0], [0.0] or [-0.0], makes each
    configuration function raise [ZeroDivisionError] when it computes
    the period, after the commands that precede it in the source were
    sent: the device is left reconfigured in part, and the trigger is not
    armed. *)
Theorem configure_zero_frequency
  (D : Instrument) (s : dev_state D) (repr_float : float -> string)
  (samples_per_burst frequency aperture max_input : pynum) :
  accepts_all D ->
  py_is_zero frequency = true ->
  exists msg : string,
    run_outcome_calls D s
      (configure_sub_sampling repr_float samples_per_burst frequency max_input)
    = (Raised (ZeroDivisionError msg),
       map OpWrite ["PRESET FAST"; "MEM FIFO"; "MFORMAT SINT"; "OFORMAT SINT"; "SSDC 1"]) /\
    run_outcome_calls D s
      (configure_direct_digitalizing repr_float samples_per_burst frequency aperture max_input)
    = (Raised (ZeroDivisionError msg),
       map OpWrite ["PRESET DIG"; "DSDC " ++ str repr_float (np_abs max_input);
                    "MEM LIFO"; "MFORMAT SINT"; "OFORMAT SINT"]) /\
    run_outcome_calls D s
      (configure_DCV_digitalizing repr_float samples_per_burst frequency aperture max_input)
    = (Raised (ZeroDivisionError msg),
       map OpWrite
         ["PRESET DIG"; "MEM LIFO";
          "MFORMAT " ++ (if PyNum.gt aperture (PyFloat 1.4e-6) then "DINT" else "SINT");
          "OFORMAT " ++ (if PyNum.gt aperture (PyFloat 1.4e-6) then "DINT" else "SINT")]).
Proof.
  intros Hacc Hz. destruct (truediv_one_zero frequency Hz) as [msg Hdiv].
  exists msg. unfold run_outcome_calls. split; [|split].
  - destruct (run_write_only_accepting D
                (configure_sub_sampling repr_float samples_per_burst frequency max_input) s
                Hacc (configure_sub_sampling_write_only _ _ _ _)) as [Hend ->].
    assert (He : ending (configure_sub_sampling repr_float samples_per_burst frequency
                           max_input) = Some (Raised (ZeroDivisionError msg)))
      by (unfold configure_sub_sampling; rewrite Hdiv; reflexivity).
    assert (Hw : written (configure_sub_sampling repr_float samples_per_burst frequency
                            max_input)
                 = ["PRESET FAST"; "MEM FIFO"; "MFORMAT SINT"; "OFORMAT SINT"; "SSDC 1"])
      by (unfold configure_sub_sampling; rewrite Hdiv; reflexivity).
    rewrite He in Hend. apply Some_inj in Hend. rewrite <- Hend, Hw. reflexivity.
  - destruct (run_write_only_accepting D
                (configure_direct_digitalizing repr_float samples_per_burst frequency
                   aperture max_input) s
                Hacc (configure_direct_digitalizing_write_only _ _ _ _ _)) as [Hend ->].
    assert (He : ending (configure_direct_digitalizing repr_float samples_per_burst
                           frequency aperture max_input)
                 = Some (Raised (ZeroDivisionError msg)))
      by (unfold configure_direct_digitalizing; rewrite Hdiv; reflexivity).
    assert (Hw : written (configure_direct_digitalizing repr_float samples_per_burst
                            frequency aperture max_input)
                 = ["PRESET DIG"; "DSDC " ++ str repr_float (np_abs max_input);
                    "MEM LIFO"; "MFORMAT SINT"; "OFORMAT SINT"])
      by (unfold configure_direct_digitalizing; rewrite Hdiv; reflexivity).
    rewrite He in Hend. apply Some_inj in Hend. rewrite <- Hend, Hw. reflexivity.
  - destruct (run_write_only_accepting D
                (configure_DCV_digitalizing repr_float samples_per_burst frequency
                   aperture max_input) s
                Hacc (configure_DCV_digitalizing_write_only _ _ _ _ _)) as [Hend ->].
    assert (He : ending (configure_DCV_digitalizing repr_float samples_per_burst
                           frequency aperture max_input)
                 = Some (Raised (ZeroDivisionError msg)))
      by (unfold configure_DCV_digitalizing; rewrite Hdiv; reflexivity).
    assert (Hw : written (configure_DCV_digitalizing repr_float samples_per_burst
                            frequency aperture max_input)
                 = ["PRESET DIG"; "MEM LIFO";
                    "MFORMAT " ++ (if PyNum.gt aperture (PyFloat 1.4e-6)
                                   then "DINT" else "SINT");
                    "OFORMAT " ++ (if PyNum.gt aperture (PyFloat 1.4e-6)
                                   then "DINT" else "SINT")])
      by (unfold configure_DCV_digitalizing; rewrite Hdiv; reflexivity).
    rewrite He in Hend. apply Some_inj in Hend. rewrite <- Hend, Hw. reflexivity.
Qed.

Lemma configure_zero_frequency_witness :
  accepts_all (synthetic [] []) /\
  py_is_zero (PyFloat neg_zero) = true /\
  exists msg : string,
    run_outcome_calls (synthetic [] []) tt
      (configure_sub_sampling (fun _ => "x") (PyInt 1000) (PyFloat neg_zero) (PyInt 10))
    = (Raised (ZeroDivisionError msg),
       map OpWrite ["PRESET FAST"; "MEM FIFO"; "MFORMAT SINT"; "OFORMAT SINT"; "SSDC 1"]) /\
    run_outcome_calls (synthetic [] []) tt
      (configure_direct_digitalizing (fun _ => "x") (PyInt 1000) (PyFloat neg_zero)
         (PyFloat 2e-6) (PyInt 10))
    = (Raised (ZeroDivisionError msg),
       map OpWrite ["PRESET DIG"; "DSDC " ++ str (fun _ => "x") (np_abs (PyInt 10));
                    "MEM LIFO"; "MFORMAT SINT"; "OFORMAT SINT"]) /\
    run_outcome_calls (synthetic [] []) tt
      (configure_DCV_digitalizing (fun _ => "x") (PyInt 1000) (PyFloat neg_zero)
         (PyFloat 2e-6) (PyInt 10))
    = (Raised (ZeroDivisionError msg),
       map OpWrite
         ["PRESET DIG"; "MEM LIFO";
          "MFORMAT " ++ (if PyNum.gt (PyFloat 2e-6) (PyFloat 1.4e-6) then "DINT" else "SINT");
          "OFORMAT " ++ (if PyNum.gt (PyFloat 2e-6) (PyFloat 1.4e-6) then "DINT" else "SINT")]).
Proof.
  assert (Hacc : accepts_all (synthetic [] [])) by (intros cmd s; discriminate).
  assert (Hz : py_is_zero (PyFloat neg_zero) = true) by (vm_compute; reflexivity).
  split; [exact Hacc|]. split; [exact Hz|].
  exact (configure_zero_frequency (synthetic [] []) tt (fun _ => "x") (PyInt 1000)
           (PyFloat neg_zero) (PyFloat 2e-6) (PyInt 10) Hacc Hz).
Defined.

(** X13. [configure_direct_digitalizing] never reads its [t_aper]: with
    two values of it the function is the same.  Whatever its arguments,
    its fourth and fifth commands are [MFORMAT SINT] and [OFORMAT SINT],
    and it never sends [MFORMAT DINT] nor [OFORMAT DINT]: the memory
    holds two-byte samples at every aperture. *)
Theorem configure_direct_digitalizing_ignores_t_aper
  (repr_float : float -> string)
  (samples_per_burst effective_sampling_frequency t_aper t_aper' max_input : pynum) :
  let p := configure_direct_digitalizing repr_float samples_per_burst
             effective_sampling_frequency t_aper max_input in
  p = configure_direct_digitalizing repr_float samples_per_burst
        effective_sampling_frequency t_aper' max_input /\
  nth_error (written p) 3 = Some "MFORMAT SINT" /\
  nth_error (written p) 4 = Some "OFORMAT SINT" /\
  ~ In "MFORMAT DINT" (written p) /\
  ~ In "OFORMAT DINT" (written p).
Proof.
  intros p. subst p. split; [reflexivity|]. split; [reflexivity|]. split; [reflexivity|].
  unfold configure_direct_digitalizing.
  destruct (truediv (PyInt 1) effective_sampling_frequency) as [e|period];
    simpl; split; intuition discriminate.
Qed.

Lemma abs_opp (f : float) : PrimFloat.abs (- f)%float = PrimFloat.abs f.
Proof.
  rewrite <- (SF2Prim_Prim2SF (PrimFloat.abs (- f))), <- (SF2Prim_Prim2SF (PrimFloat.abs f)).
  rewrite !abs_spec, opp_spec. destruct (Prim2SF f); reflexivity.
Qed.

Lemma np_abs_neg (a : pynum) :
  a <> PyInt (2 ^ 63) -> a <> PyInt (- 2 ^ 63) ->
  np_abs (py_neg a) = np_abs a.
Proof.
  destruct a as [z|f]; intros H1 H2; unfold np_abs, py_neg.
  - assert (Hp : z <> 2 ^ 63) by congruence.
    assert (Hm : z <> - 2 ^ 63) by congruence.
    destruct (Z.eqb_spec (- z) (- 2 ^ 63)); [lia|].
    destruct (Z.eqb_spec z (- 2 ^ 63)); [lia|].
    rewrite Z.abs_opp. reflexivity.
  - rewrite abs_opp. reflexivity.
Qed.

(** X14. Only the magnitude of [max_input] reaches the device:
    [configure_direct_digitalizing] and [configure_DCV_digitalizing] are
    the same for [max_input] and for [-max_input].  The two [int]s
    [2**63] and [-2**63] are left out: [numpy.abs] takes [-2**63] as an
    [int64], which has no [2**63]. *)
Theorem configure_max_input_magnitude
  (repr_float : float -> string)
  (samples_per_burst frequency aperture max_input : pynum) :
  max_input <> PyInt (2 ^ 63) -> max_input <> PyInt (- 2 ^ 63) ->
  configure_direct_digitalizing repr_float samples_per_burst frequency aperture
    (py_neg max_input)
  = configure_direct_digitalizing repr_float samples_per_burst frequency aperture
      max_input /\
  configure_DCV_digitalizing repr_float samples_per_burst frequency aperture
    (py_neg max_input)
  = configure_DCV_digitalizing repr_float samples_per_burst frequency aperture
      max_input.
Proof.
  intros H1 H2. unfold configure_direct_digitalizing, configure_DCV_digitalizing.
  rewrite (np_abs_neg max_input H1 H2). split; reflexivity.
Qed.

Lemma configure_max_input_magnitude_witness :
  configure_direct_digitalizing (fun _ => "x") (PyInt 1000) (PyInt 100000) (PyFloat 2e-6)
    (py_neg (PyFloat 10))
  = configure_direct_digitalizing (fun _ => "x") (PyInt 1000) (PyInt 100000) (PyFloat 2e-6)
      (PyFloat 10) /\
  configure_DCV_digitalizing (fun _ => "x") (PyInt 1000) (PyInt 100000) (PyFloat 2e-6)
    (py_neg (PyFloat 10))
  = configure_DCV_digitalizing (fun _ => "x") (PyInt 1000) (PyInt 100000) (PyFloat 2e-6)
      (PyFloat 10).
Proof.
  apply (configure_max_input_magnitude (fun _ => "x") (PyInt 1000) (PyInt 100000)
           (PyFloat 2e-6) (PyFloat 10)); discriminate.
Defined.

(** At [-2**63] the sign does reach the device. *)
Remark np_abs_int64_min :
  str (fun _ => "x") (np_abs (PyInt (- 2 ^ 63))) = "-9223372036854775808".
Proof. vm_compute. reflexivity. Qed.

(** ** Answers that are not numbers *)





(** ** The aperture check on integers *)

(** X17. Among the [int]s, [T_aper_check] accepts 1 and nothing else:
    an aperture given as a whole number of seconds passes only when it
    is one second. *)
Theorem T_aper_check_int_one (z : Z) :
  T_aper_check (PyInt z) = (z =? 1).
Proof.
  unfold T_aper_check, PyNum.gt, PyNum.lt.
  assert (Hlow : is_Lt (cmp_Z_SF z (Prim2SF 500e-9)) = (z <=? 0)).
  { let v := eval vm_compute in (Prim2SF 500e-9) in
    change (Prim2SF 500e-9) with v.
    unfold cmp_Z_SF, is_Lt. cbv iota beta.
    change (0 <=? -73) with false. cbv iota.
    change (2 ^ (- (-73))) with 9444732965739290427392.
    destruct (Z.compare_spec (z * 9444732965739290427392) 4722366482869645) as [E|E|E];
      destruct (Z.leb_spec z 0); try reflexivity; exfalso; lia. }
  rewrite Hlow.
  destruct (Z.leb_spec z 0), (Z.ltb_spec 1 z), (Z.eqb_spec z 1); simpl; try reflexivity; lia.
Qed.
